(** * Portfolio WebGL examples: camera, scene and shader-build behaviour

    A shallow embedding of the JavaScript sources
    - [examples/Tree/scripts/app.js] ([Scene], [Model], [Camera]),
    - the Phong renderer with its GLSL shaders and the [Material] class,
    - [examples/practice/scripts/gl-scene.js] (the gbuffer lighting shader).

    Numbers are modelled as real numbers: [vec3] and [mat4] are glMatrix
    arrays read as exact values, so every statement below is about the
    arithmetic the code asks for, not about its IEEE rounding.  glMatrix
    itself is an external library; the few functions the sources call are
    written out here after the library's definitions. *)

From Stdlib Require Import Reals Lra Psatz List String Ascii Bool Arith NArith ZArith Lia.
From Stdlib Require Import DecimalString Sorted.
Import ListNotations.

Local Open Scope R_scope.

(** ** glMatrix: [vec3] *)

Module vec3.

Record t : Type := fromValues { x : R; y : R; z : R }.

(** [vec3.create()] *)
Definition create : t := fromValues 0 0 0.

Definition add (a b : t) : t :=
  fromValues (x a + x b) (y a + y b) (z a + z b).

Definition subtract (a b : t) : t :=
  fromValues (x a - x b) (y a - y b) (z a - z b).

Definition scale (a : t) (s : R) : t :=
  fromValues (x a * s) (y a * s) (z a * s).

(** [vec3.scaleAndAdd(out, a, b, scale)]: [out = a + b * scale] *)
Definition scaleAndAdd (a b : t) (s : R) : t :=
  fromValues (x a + x b * s) (y a + y b * s) (z a + z b * s).

Definition dot (a b : t) : R := x a * x b + y a * y b + z a * z b.

Definition cross (a b : t) : t :=
  fromValues (y a * z b - z a * y b)
             (z a * x b - x a * z b)
             (x a * y b - y a * x b).

Definition squaredLength (a : t) : R := x a * x a + y a * y a + z a * z a.

Definition length (a : t) : R := sqrt (squaredLength a).

(** [vec3.normalize(out, a)]:
    [len = x*x + y*y + z*z; if (len > 0) len = 1 / Math.sqrt(len);
     out = a * len] *)
Definition normalize (a : t) : t :=
  let len := squaredLength a in
  let len := if Rlt_dec 0 len then 1 / sqrt len else len in
  fromValues (x a * len) (y a * len) (z a * len).

End vec3.

(** ** glMatrix: [mat4], column-major, sixteen entries *)

Module mat4.

Record t : Type := mk {
  m0 : R; m1 : R; m2 : R; m3 : R;
  m4 : R; m5 : R; m6 : R; m7 : R;
  m8 : R; m9 : R; m10 : R; m11 : R;
  m12 : R; m13 : R; m14 : R; m15 : R
}.

(** [glMatrix.EPSILON] *)
Definition EPSILON : R := 1 / 1000000.

(** [mat4.create()]: the identity *)
Definition create : t :=
  mk 1 0 0 0
     0 1 0 0
     0 0 1 0
     0 0 0 1.

Definition hypot3 (a b c : R) : R := sqrt (a * a + b * b + c * c).

(** [mat4.rotate(out, a, rad, axis)]; [None] is the [return null] taken
    when the axis is shorter than [EPSILON] (then [out] is not written). *)
Definition rotate (a : t) (rad : R) (axis : vec3.t) : option t :=
  let len := hypot3 (vec3.x axis) (vec3.y axis) (vec3.z axis) in
  if Rlt_dec len EPSILON then None else
  let len := 1 / len in
  let x := vec3.x axis * len in
  let y := vec3.y axis * len in
  let z := vec3.z axis * len in
  let s := sin rad in
  let c := cos rad in
  let t := 1 - c in
  let b00 := x * x * t + c in
  let b01 := y * x * t + z * s in
  let b02 := z * x * t - y * s in
  let b10 := x * y * t - z * s in
  let b11 := y * y * t + c in
  let b12 := z * y * t + x * s in
  let b20 := x * z * t + y * s in
  let b21 := y * z * t - x * s in
  let b22 := z * z * t + c in
  Some (mk
    (m0 a * b00 + m4 a * b01 + m8 a * b02)
    (m1 a * b00 + m5 a * b01 + m9 a * b02)
    (m2 a * b00 + m6 a * b01 + m10 a * b02)
    (m3 a * b00 + m7 a * b01 + m11 a * b02)
    (m0 a * b10 + m4 a * b11 + m8 a * b12)
    (m1 a * b10 + m5 a * b11 + m9 a * b12)
    (m2 a * b10 + m6 a * b11 + m10 a * b12)
    (m3 a * b10 + m7 a * b11 + m11 a * b12)
    (m0 a * b20 + m4 a * b21 + m8 a * b22)
    (m1 a * b20 + m5 a * b21 + m9 a * b22)
    (m2 a * b20 + m6 a * b21 + m10 a * b22)
    (m3 a * b20 + m7 a * b21 + m11 a * b22)
    (m12 a) (m13 a) (m14 a) (m15 a)).

(** [vec3.transformMat4(out, a, m)], with its [w = w || 1.0] *)
Definition transformMat4 (a : vec3.t) (m : t) : vec3.t :=
  let x := vec3.x a in
  let y := vec3.y a in
  let z := vec3.z a in
  let w := m3 m * x + m7 m * y + m11 m * z + m15 m in
  let w := if Req_dec_T w 0 then 1 else w in
  vec3.fromValues
    ((m0 m * x + m4 m * y + m8 m * z + m12 m) / w)
    ((m1 m * x + m5 m * y + m9 m * z + m13 m) / w)
    ((m2 m * x + m6 m * y + m10 m * z + m14 m) / w).

(** normalisation step used three times inside [mat4.lookAt]:
    [len = hypot(v); if (!len) v = 0 else v *= 1 / len] *)
Definition unit_or_zero (a b c : R) : vec3.t :=
  let len := hypot3 a b c in
  if Req_dec_T len 0 then vec3.fromValues 0 0 0
  else vec3.fromValues (a * (1 / len)) (b * (1 / len)) (c * (1 / len)).

(** the part of [mat4.lookAt] after its early return *)
Definition lookAt_body (eye center up : vec3.t) : t :=
  let eyex := vec3.x eye in
  let eyey := vec3.y eye in
  let eyez := vec3.z eye in
  let upx := vec3.x up in
  let upy := vec3.y up in
  let upz := vec3.z up in
  let z0 := eyex - vec3.x center in
  let z1 := eyey - vec3.y center in
  let z2 := eyez - vec3.z center in
  let len := 1 / hypot3 z0 z1 z2 in
  let z0 := z0 * len in
  let z1 := z1 * len in
  let z2 := z2 * len in
  let xv := unit_or_zero (upy * z2 - upz * z1)
                         (upz * z0 - upx * z2)
                         (upx * z1 - upy * z0) in
  let x0 := vec3.x xv in
  let x1 := vec3.y xv in
  let x2 := vec3.z xv in
  let yv := unit_or_zero (z1 * x2 - z2 * x1)
                         (z2 * x0 - z0 * x2)
                         (z0 * x1 - z1 * x0) in
  let y0 := vec3.x yv in
  let y1 := vec3.y yv in
  let y2 := vec3.z yv in
  mk x0 y0 z0 0
     x1 y1 z1 0
     x2 y2 z2 0
     (- (x0 * eyex + x1 * eyey + x2 * eyez))
     (- (y0 * eyex + y1 * eyey + y2 * eyez))
     (- (z0 * eyex + z1 * eyey + z2 * eyez))
     1.

(** [mat4.lookAt(out, eye, center, up)]: the identity when eye and
    center agree within [EPSILON] in every coordinate *)
Definition lookAt (eye center up : vec3.t) : t :=
  if Rlt_dec (Rabs (vec3.x eye - vec3.x center)) EPSILON then
    if Rlt_dec (Rabs (vec3.y eye - vec3.y center)) EPSILON then
      if Rlt_dec (Rabs (vec3.z eye - vec3.z center)) EPSILON then create
      else lookAt_body eye center up
    else lookAt_body eye center up
  else lookAt_body eye center up.

(** [mat4.perspective(out, fovy, aspect, near, far)] with a finite [far] *)
Definition perspective (fovy aspect near far : R) : t :=
  let f := 1 / tan (fovy / 2) in
  let nf := 1 / (near - far) in
  mk (f / aspect) 0 0 0
     0 f 0 0
     0 0 ((far + near) * nf) (-1)
     0 0 (2 * far * near * nf) 0.

End mat4.

(** [glMatrix.toRadian(a)] *)
Definition toRadian (a : R) : R := a * (PI / 180).

(** ** [Camera] (app.js) *)

Record Camera : Type := mkCamera {
  position : vec3.t;
  forward : vec3.t;
  up : vec3.t;
  right : vec3.t
}.

(** [function Camera(position, lookAt, up)]: the three cross products are
    taken on the vectors before normalisation, then all three are
    normalised. *)
Definition new_Camera (position lookAt up : vec3.t) : Camera :=
  let forward := vec3.subtract lookAt position in
  let right := vec3.cross forward up in
  let up := vec3.cross right forward in
  mkCamera position
           (vec3.normalize forward)
           (vec3.normalize up)
           (vec3.normalize right).

(** [Camera.prototype.getViewMatrix] *)
Definition getViewMatrix (c : Camera) : mat4.t :=
  let lookAt := vec3.add (position c) (forward c) in
  mat4.lookAt (position c) lookAt (up c).


(** [Camera.prototype.realign] *)
Definition realign (c : Camera) : Camera :=
  let right := vec3.cross (forward c) (up c) in
  let up := vec3.cross right (forward c) in
  mkCamera (position c)
           (vec3.normalize (forward c))
           (vec3.normalize up)
           (vec3.normalize right).

(** [mat4.rotate(m, m, rad, axis)] applied in place to a fresh identity;
    when [rotate] returns null the matrix keeps its old contents. *)
Definition rotation_of (rad : R) (axis : vec3.t) : mat4.t :=
  match mat4.rotate mat4.create rad axis with
  | Some m => m
  | None => mat4.create
  end.

(** [Camera.prototype.rotateUp] *)
Definition rotateUp (rad : R) (c : Camera) : Camera :=
  let upMatrix := rotation_of rad (vec3.fromValues 1 0 0) in
  realign (mkCamera (position c)
                    (mat4.transformMat4 (forward c) upMatrix)
                    (up c) (right c)).

(** [Camera.prototype.rotateRight] *)
Definition rotateRight (rad : R) (c : Camera) : Camera :=
  let rightMatrix := rotation_of rad (vec3.fromValues 0 0 1) in
  realign (mkCamera (position c)
                    (mat4.transformMat4 (forward c) rightMatrix)
                    (up c) (right c)).

(** [Camera.prototype.moveForward], [moveRight], [moveUp] *)
Definition moveForward (dist : R) (c : Camera) : Camera :=
  mkCamera (vec3.scaleAndAdd (position c) (forward c) dist)
           (forward c) (up c) (right c).



(** *** Sequences of rotate calls *)

Inductive rotation : Type :=
| RotateUp (rad : R)
| RotateRight (rad : R).

Definition rotate_call (op : rotation) (c : Camera) : Camera :=
  match op with
  | RotateUp rad => rotateUp rad c
  | RotateRight rad => rotateRight rad c
  end.


(** The forward vector as a rotate call leaves it just before [realign]. *)
Definition turned_forward (op : rotation) (c : Camera) : vec3.t :=
  match op with
  | RotateUp rad =>
      mat4.transformMat4 (forward c) (rotation_of rad (vec3.fromValues 1 0 0))
  | RotateRight rad =>
      mat4.transformMat4 (forward c) (rotation_of rad (vec3.fromValues 0 0 1))
  end.



(** ** JavaScript values, objects and effects *)

(** A field or variable holding an object: [undefined], [null], or the
    object. *)
Inductive slot (A : Type) : Type :=
| Undefined
| Null
| Obj (a : A).
Arguments Undefined {A}.
Arguments Null {A}.
Arguments Obj {A} a.

(** [if (v)] for a value that is an object when it is there *)
Definition truthy {A : Type} (v : slot A) : bool :=
  match v with
  | Obj _ => true
  | _ => false
  end.

(** [if (n)] for a number when it is there *)
Definition truthy_number (v : slot nat) : bool :=
  match v with
  | Obj (S _) => true
  | _ => false
  end.

(** An ordinary object used as a map from ids to values.  The list is the
    object's own properties in the order [for (i in o)] visits them: keys
    that are array indices first, by ascending numeric value, then the other
    keys in the order they were created. *)
Module JSObject.

Definition t (V : Type) : Type := list (string * V).

Definition empty {V : Type} : t V := [].

Definition digit (c : ascii) : option N :=
  let n := N_of_ascii c in
  if ((48 <=? n) && (n <=? 57))%N then Some (n - 48)%N else None.

Fixpoint digits (s : string) (acc : N) : option N :=
  match s with
  | EmptyString => Some acc
  | String c rest =>
      match digit c with
      | Some d => digits rest (10 * acc + d)%N
      | None => None
      end
  end.

(** The key is an array index: a canonical decimal numeral (no sign, no
    leading zero) below 2^32 - 1. *)
Definition array_index (k : string) : option N :=
  match k with
  | EmptyString => None
  | String c rest =>
      if (N_of_ascii c =? 48)%N then
        match rest with
        | EmptyString => Some 0%N
        | _ => None
        end
      else
        match digits k 0 with
        | Some n => if (n <? 4294967295)%N then Some n else None
        | None => None
        end
  end.

Fixpoint get {V : Type} (k : string) (o : t V) : slot V :=
  match o with
  | [] => Undefined
  | (k', v) :: rest => if String.eqb k k' then Obj v else get k rest
  end.

Definition has {V : Type} (k : string) (o : t V) : bool :=
  existsb (fun kv => String.eqb k (fst kv)) o.

(** overwrite the value of a key that is there; its place is kept *)
Fixpoint replace {V : Type} (k : string) (v : V) (o : t V) : t V :=
  match o with
  | [] => []
  | (k', w) :: rest =>
      if String.eqb k k' then (k', v) :: rest else (k', w) :: replace k v rest
  end.

(** a new key [k] is enumerated before the existing key [k'] *)
Definition precedes (k k' : string) : bool :=
  match array_index k, array_index k' with
  | Some n, Some m => (n <? m)%N
  | Some _, None => true
  | None, _ => false
  end.

(** create a key that is not there yet *)
Fixpoint create {V : Type} (k : string) (v : V) (o : t V) : t V :=
  match o with
  | [] => [(k, v)]
  | (k', w) :: rest =>
      if precedes k k' then (k, v) :: (k', w) :: rest
      else (k', w) :: create k v rest
  end.

(** [o[k] = v] *)
Definition set {V : Type} (k : string) (v : V) (o : t V) : t V :=
  if has k o then replace k v o else create k v o.

(** the keys in [for (i in o)] order *)
Definition keys {V : Type} (o : t V) : list string := map fst o.

End JSObject.


(** Exceptions the modelled code can raise *)
Inductive exn : Type :=
| TypeError (what : string)
| ReferenceError (what : string)
| SyntaxError (what : string).

Inductive completion (A : Type) : Type :=
| Normal (a : A)
| Throw (e : exn).
Arguments Normal {A} a.
Arguments Throw {A} e.

(** ** The graphics context *)

(** WebGL object handles ([WebGLShader], [WebGLProgram], [WebGLBuffer],
    [WebGLTexture], uniform locations) and animation-frame ids *)
Definition handle : Type := nat.
Bind Scope nat_scope with handle.

Inductive shader_kind : Type := VERTEX_SHADER | FRAGMENT_SHADER.

Inductive buffer_target : Type := ARRAY_BUFFER | ELEMENT_ARRAY_BUFFER.

Inductive capability : Type := DEPTH_TEST | CULL_FACE.

Inductive typed_array : Type :=
| Float32Array (data : list R)
| Uint16Array (data : list N).

(** [new Uint16Array(indices)] keeps each entry modulo 2^16 *)
Definition new_Uint16Array (indices : list N) : typed_array :=
  Uint16Array (map (fun n => (n mod 65536)%N) indices).

Inductive tex_param : Type :=
| TEXTURE_WRAP_S | TEXTURE_WRAP_T | TEXTURE_MIN_FILTER | TEXTURE_MAG_FILTER.

Inductive tex_value : Type := CLAMP_TO_EDGE | LINEAR.

(** The calls that change the context or draw. *)
Inductive glcall : Type :=
| createShader (kind : shader_kind) (result : handle)
| shaderSource (shader : handle) (source : string)
| compileShader (shader : handle)
| createProgram (result : handle)
| attachShader (program shader : handle)
| linkProgram (program : handle)
| validateProgram (program : handle)
| enable (cap : capability)
| frontFace_CCW
| cullFace_BACK
| viewport (x y width height : R)
| clearColor (r g b a : R)
| clear_DEPTH_COLOR
| useProgram (program : slot handle)
| uniformMatrix4fv (location : slot handle) (value : mat4.t)
| uniform3f (location : slot handle) (x y z : R)
| bindTexture_2D (texture : slot handle)
| activeTexture_0
| bindBuffer (target : buffer_target) (buffer : slot handle)
| vertexAttribPointer_FLOAT (index : Z) (size : nat) (stride : nat) (offset : nat)
| enableVertexAttribArray (index : Z)
| drawElements_TRIANGLES (count : nat) (offset : nat)
| createBuffer (result : handle)
| bufferData_STATIC (target : buffer_target) (data : typed_array)
| createTexture (result : handle)
| pixelStorei_FLIP_Y (flag : bool)
| texParameteri_2D (pname : tex_param) (value : tex_value)
| texImage2D_RGBA (image : string).

(** What is written to the console *)
Inductive logged : Type :=
| LogText (text : string)
| LogException (e : exn)
| LogNumber (n : nat).

(** Everything the page can observe of a run, in order of occurrence *)
Inductive event : Type :=
| GL (call : glcall)
| ConsoleError (what : logged)
| CallbackInvoked
| UpdateInvoked (dt : R)
| RequestAnimationFrame (id : handle)
| CancelAnimationFrame (id : handle)
| XHRGet (url : string)
| ImageRequested (url : string).

(** The answers of one graphics context: compile, link and validate
    status with their info logs, the locations it hands out, and the size
    of its canvas. *)
Record driver : Type := mkDriver {
  COMPILE_STATUS : shader_kind -> string -> bool;
  getShaderInfoLog : shader_kind -> string -> string;
  LINK_STATUS : string -> string -> bool;
  linkInfoLog : string -> string -> string;
  VALIDATE_STATUS : string -> string -> bool;
  validateInfoLog : string -> string -> string;
  getUniformLocation : string -> slot handle;
  getAttribLocation : string -> Z;
  clientWidth : R;
  clientHeight : R
}.

(** A function passed as completion callback; calling anything else is a
    [TypeError]. *)
Inductive callback : Type := Function | NotAFunction.

(** ** Effects: state, observable events, exceptions

    A computation runs on a state [S] and completes normally or by a
    throw; the state reached is kept in both cases, as assignments made
    before a throw stay made. *)
Definition js (S A : Type) : Type := S -> completion A * S.

Definition ret {S A : Type} (a : A) : js S A := fun s => (Normal a, s).

Definition bind {S A B : Type} (c : js S A) (k : A -> js S B) : js S B :=
  fun s =>
    match c s with
    | (Normal a, s') => k a s'
    | (Throw e, s') => (Throw e, s')
    end.

Definition throw {S A : Type} (e : exn) : js S A := fun s => (Throw e, s).

(** [try { c } catch (e) { h e }] *)
Definition try_catch {S A : Type} (c : js S A) (h : exn -> js S A) : js S A :=
  fun s =>
    match c s with
    | (Normal a, s') => (Normal a, s')
    | (Throw e, s') => h e s'
    end.

Declare Scope js_scope.
Delimit Scope js_scope with js.
Notation "x <- c ;; k" := (bind c (fun x => k))
  (at level 61, c at next level, right associativity) : js_scope.
Notation "c ;; k" := (bind c (fun _ => k))
  (at level 61, right associativity) : js_scope.

(** The state of a run: the object [this] refers to, the next unused
    handle, and the events so far (oldest first). *)
Record state (O : Type) : Type := mkState {
  this : O;
  next_handle : handle;
  events : list event
}.
Arguments mkState {O} this next_handle events.
Arguments this {O} s.
Arguments next_handle {O} s.
Arguments events {O} s.

Definition emit {O : Type} (e : event) : js (state O) unit :=
  fun s => (Normal tt, mkState (this s) (next_handle s) (events s ++ [e])).

(** a handle not handed out before; never zero *)
Definition fresh {O : Type} : js (state O) handle :=
  fun s => (Normal (S (next_handle s)),
            mkState (this s) (S (next_handle s)) (events s)).

Definition get_this {O : Type} : js (state O) O :=
  fun s => (Normal (this s), s).

Definition update {O : Type} (f : O -> O) : js (state O) unit :=
  fun s => (Normal tt, mkState (f (this s)) (next_handle s) (events s)).

Definition gl {O : Type} (c : glcall) : js (state O) unit := emit (GL c).

Definition console_error {O : Type} (what : logged) : js (state O) unit :=
  emit (ConsoleError what).

(** [v.property] on a value that may be [undefined] or [null] *)
Definition deref {O A : Type} (what : string) (v : slot A) : js (state O) A :=
  match v with
  | Obj a => ret a
  | _ => throw (TypeError what)
  end.

(** [callback()] *)
Definition invoke {O : Type} (f : callback) : js (state O) unit :=
  match f with
  | Function => emit CallbackInvoked
  | NotAFunction => throw (TypeError "callback is not a function")
  end.

(** a loop over the listed values: [for (i = 0; i < len; i++)] over
    [0 .. len-1], [for (var i in o)] over the keys of [o] *)
Fixpoint for_each {S A : Type} (l : list A) (body : A -> js S unit) : js S unit :=
  match l with
  | [] => ret tt
  | a :: rest => bind (body a) (fun _ => for_each rest body)
  end.

(** ** The tree scene (app.js) *)

Module Tree.

(** [vertexShaderText] of [Scene.prototype.Load] *)
Definition vertexShaderText : string :=
"precision mediump float;

attribute vec3 vertPosition;
attribute vec2 vertTexCoord;
attribute vec3 vertNormal;

varying vec2 fragTexCoord;
varying vec3 fragNormal;

uniform mat4 mWorld;
uniform mat4 mView;
uniform mat4 mProj;

void main()
{
  fragTexCoord = vertTexCoord;
  fragNormal = (mWorld * vec4(vertNormal, 0.0)).xyz;

  gl_Position = mProj * mView * mWorld * vec4(vertPosition, 1.0);
}".

(** [fragmentShaderText] of [Scene.prototype.Load] *)
Definition fragmentShaderText : string :=
"precision mediump float;

struct DirectionalLight
{
	vec3 direction;
	vec3 color;
};

varying vec2 fragTexCoord;
varying vec3 fragNormal;

uniform vec3 ambientLightIntensity;
uniform DirectionalLight sun;
uniform sampler2D sampler;

void main()
{
	vec3 surfaceNormal = normalize(fragNormal);
	vec3 normSunDir = normalize(sun.direction);
	vec4 texel = texture2D(sampler, fragTexCoord);

	vec3 lightIntensity = ambientLightIntensity +
		sun.color * max(dot(fragNormal, normSunDir), 0.0);

  gl_FragColor = vec4(texel.rgb * lightIntensity, texel.a);
}".

(** [me.program] with the [uniforms] and [attribs] tables hung on it *)
Record Program : Type := mkProgram {
  program_handle : handle;
  u_mProj : slot handle;
  u_mView : slot handle;
  u_mWorld : slot handle;
  u_ambientLightIntensity : slot handle;
  u_sunDirection : slot handle;
  u_sunColor : slot handle;
  a_vPos : Z;
  a_vNorm : Z;
  a_vTexCoord : Z
}.

(** [Model]: four buffers, the number of indices, the world matrix *)
Record Model : Type := mkModel {
  vbo : handle;
  ibo : handle;
  nbo : handle;
  tbo : handle;
  nPoints : nat;
  world : mat4.t
}.

(** The fields of a [Scene] object ([gl] is the context the run is on). *)
Record Scene : Type := mkScene {
  models : slot (JSObject.t Model);
  textures : slot (JSObject.t handle);
  program : slot Program;
  camera : slot Camera;
  viewMatrix : slot mat4.t;
  projMatrix : slot mat4.t;
  nextFrameHandle : slot handle
}.

(** [new Scene(gl)] *)
Definition new_Scene : Scene :=
  mkScene Undefined Undefined Undefined Undefined Undefined Undefined Undefined.

Definition set_models (v : slot (JSObject.t Model)) (me : Scene) : Scene :=
  mkScene v (textures me) (program me) (camera me) (viewMatrix me)
          (projMatrix me) (nextFrameHandle me).

Definition set_textures (v : slot (JSObject.t handle)) (me : Scene) : Scene :=
  mkScene (models me) v (program me) (camera me) (viewMatrix me)
          (projMatrix me) (nextFrameHandle me).

Definition set_program (v : slot Program) (me : Scene) : Scene :=
  mkScene (models me) (textures me) v (camera me) (viewMatrix me)
          (projMatrix me) (nextFrameHandle me).

Definition set_camera (v : slot Camera) (me : Scene) : Scene :=
  mkScene (models me) (textures me) (program me) v (viewMatrix me)
          (projMatrix me) (nextFrameHandle me).

Definition set_viewMatrix (v : slot mat4.t) (me : Scene) : Scene :=
  mkScene (models me) (textures me) (program me) (camera me) v
          (projMatrix me) (nextFrameHandle me).

Definition set_projMatrix (v : slot mat4.t) (me : Scene) : Scene :=
  mkScene (models me) (textures me) (program me) (camera me) (viewMatrix me)
          v (nextFrameHandle me).

Definition set_nextFrameHandle (v : slot handle) (me : Scene) : Scene :=
  mkScene (models me) (textures me) (program me) (camera me) (viewMatrix me)
          (projMatrix me) v.

(** What [JSON.parse(request.responseText)] gives for a model file: a
    [SyntaxError], a value that lacks one of the properties
    [data.attributes.position.array], [data.index.array],
    [data.attributes.normal.array], [data.attributes.uv.array], or the four
    arrays of the three.js exporter format. *)
Record geometry : Type := mkGeometry {
  position_array : list R;
  index_array : list N;
  normal_array : list R;
  uv_array : list R
}.

Inductive parsed : Type :=
| Malformed (message : string)
| Incomplete
| ThreeJS (g : geometry).

Section Methods.

Variable context : driver.
Variable JSON_parse : string -> parsed.

Local Open Scope js_scope.

(** [Scene.prototype.Load] *)
Definition Load (callback : callback) : js (state Scene) unit :=
  update (set_models (Obj JSObject.empty)) ;;
  update (set_textures (Obj JSObject.empty)) ;;
  vs <- fresh ;;
  gl (createShader VERTEX_SHADER vs) ;;
  gl (shaderSource vs vertexShaderText) ;;
  gl (compileShader vs) ;;
  if negb (COMPILE_STATUS context VERTEX_SHADER vertexShaderText) then
    console_error
      (LogText (String.append "Error compiling vertex shader: "
                  (getShaderInfoLog context VERTEX_SHADER vertexShaderText)))
  else
  fs <- fresh ;;
  gl (createShader FRAGMENT_SHADER fs) ;;
  gl (shaderSource fs fragmentShaderText) ;;
  gl (compileShader fs) ;;
  if negb (COMPILE_STATUS context FRAGMENT_SHADER fragmentShaderText) then
    console_error
      (LogText (String.append "Error compiling fragment shader: "
                  (getShaderInfoLog context FRAGMENT_SHADER fragmentShaderText)))
  else
  prog <- fresh ;;
  gl (createProgram prog) ;;
  gl (attachShader prog vs) ;;
  gl (attachShader prog fs) ;;
  gl (linkProgram prog) ;;
  if negb (LINK_STATUS context vertexShaderText fragmentShaderText) then
    console_error
      (LogText (String.append "Error linking program: "
                  (linkInfoLog context vertexShaderText fragmentShaderText)))
  else
  gl (validateProgram prog) ;;
  if negb (VALIDATE_STATUS context vertexShaderText fragmentShaderText) then
    console_error
      (LogText (String.append "Error validating program: "
                  (validateInfoLog context vertexShaderText fragmentShaderText)))
  else
  update (set_program (Obj (mkProgram prog
    (getUniformLocation context "mProj")
    (getUniformLocation context "mView")
    (getUniformLocation context "mWorld")
    (getUniformLocation context "ambientLightIntensity")
    (getUniformLocation context "sun.direction")
    (getUniformLocation context "sun.color")
    (getAttribLocation context "vertPosition")
    (getAttribLocation context "vertNormal")
    (getAttribLocation context "vertTexCoord")))) ;;
  let cam := new_Camera (vec3.fromValues 10 0 0) (vec3.fromValues 0 0 0)
                        (vec3.fromValues 0 1 0) in
  update (set_camera (Obj cam)) ;;
  update (set_viewMatrix (Obj (getViewMatrix cam))) ;;
  update (set_projMatrix (Obj (mat4.perspective (toRadian 45)
            (clientWidth context / clientHeight context) (1 / 10) 100))) ;;
  invoke callback.

(** [Scene.prototype.Pause] *)
Definition Pause : js (state Scene) unit :=
  me <- get_this ;;
  match nextFrameHandle me with
  | Obj (S n) => emit (CancelAnimationFrame (S n))
  | _ => ret tt
  end.

(** [Scene.prototype.Unload].  Both resource blocks test [this.models]; the
    inner loop of the first nulls every entry of an object that is dropped
    on the next line, the inner loop of the second runs from 0 to
    [this.textures.length], which an object used as a map does not bound. *)
Definition Unload (callback : callback) : js (state Scene) unit :=
  Pause ;;
  me <- get_this ;;
  (if truthy (models me) then update (set_models Null) else ret tt) ;;
  me <- get_this ;;
  (if truthy (models me) then
     _ <- deref "this.textures.length" (textures me) ;;
     update (set_textures Null)
   else ret tt) ;;
  me <- get_this ;;
  (if truthy (camera me) then update (set_camera Null) else ret tt) ;;
  me <- get_this ;;
  (if truthy (program me) then update (set_program Null) else ret tt) ;;
  me <- get_this ;;
  (if truthy (projMatrix me) then update (set_projMatrix Null) else ret tt) ;;
  me <- get_this ;;
  (if truthy (viewMatrix me) then update (set_viewMatrix Null) else ret tt) ;;
  me <- get_this ;;
  (if truthy_number (nextFrameHandle me)
   then update (set_nextFrameHandle Null) else ret tt) ;;
  invoke callback.

(** the body of the loop [for (var i in me.models)] of [Render] *)
Definition draw_model (i : string) : js (state Scene) unit :=
  me <- get_this ;;
  textures_ <- deref "me.textures" (textures me) ;;
  gl (bindTexture_2D (JSObject.get i textures_)) ;;
  gl activeTexture_0 ;;
  p <- deref "me.program" (program me) ;;
  models_ <- deref "me.models" (models me) ;;
  model <- deref "me.models[i]" (JSObject.get i models_) ;;
  gl (uniformMatrix4fv (u_mWorld p) (world model)) ;;
  gl (bindBuffer ARRAY_BUFFER (Obj (vbo model))) ;;
  gl (vertexAttribPointer_FLOAT (a_vPos p) 3 (3 * 4) 0) ;;
  gl (enableVertexAttribArray (a_vPos p)) ;;
  gl (bindBuffer ARRAY_BUFFER (Obj (tbo model))) ;;
  gl (vertexAttribPointer_FLOAT (a_vTexCoord p) 2 (2 * 4) 0) ;;
  gl (enableVertexAttribArray (a_vTexCoord p)) ;;
  gl (bindBuffer ARRAY_BUFFER (Obj (nbo model))) ;;
  gl (vertexAttribPointer_FLOAT (a_vNorm p) 3 (3 * 4) 0) ;;
  gl (enableVertexAttribArray (a_vNorm p)) ;;
  gl (bindBuffer ARRAY_BUFFER Null) ;;
  gl (bindBuffer ELEMENT_ARRAY_BUFFER (Obj (ibo model))) ;;
  gl (drawElements_TRIANGLES (nPoints model) 0) ;;
  gl (bindBuffer ELEMENT_ARRAY_BUFFER Null).

(** the keys [for (var i in o)] runs over; none for [null] or [undefined] *)
Definition for_in_keys {V : Type} (o : slot (JSObject.t V)) : list string :=
  match o with
  | Obj props => JSObject.keys props
  | _ => []
  end.

(** [Scene.prototype.Render] *)
Definition Render : js (state Scene) unit :=
  me <- get_this ;;
  gl (enable DEPTH_TEST) ;;
  gl (enable CULL_FACE) ;;
  gl frontFace_CCW ;;
  gl cullFace_BACK ;;
  gl (viewport 0 0 (clientWidth context) (clientHeight context)) ;;
  gl (clearColor 0 0 0 (3 / 10)) ;;
  gl clear_DEPTH_COLOR ;;
  gl (useProgram (match program me with
                  | Obj p => Obj (program_handle p)
                  | Null => Null
                  | Undefined => Undefined
                  end)) ;;
  p <- deref "me.program" (program me) ;;
  proj <- deref "me.projMatrix" (projMatrix me) ;;
  gl (uniformMatrix4fv (u_mProj p) proj) ;;
  view <- deref "me.viewMatrix" (viewMatrix me) ;;
  gl (uniformMatrix4fv (u_mView p) view) ;;
  gl (uniform3f (u_ambientLightIntensity p) (2 / 10) (2 / 10) (2 / 10)) ;;
  gl (uniform3f (u_sunDirection p) 3 4 (-2)) ;;
  gl (uniform3f (u_sunColor p) (9 / 10) (9 / 10) (9 / 10)) ;;
  for_each (for_in_keys (models me)) draw_model.

(** [Scene.prototype.Begin]: the first [requestAnimationFrame(loop)] *)
Definition Begin : js (state Scene) unit :=
  id <- fresh ;;
  emit (RequestAnimationFrame id) ;;
  update (set_nextFrameHandle (Obj id)).

(** one run of the [loop] closure of [Begin] *)
Definition loop (previousFrame currentFrameTime : R) : js (state Scene) unit :=
  emit (UpdateInvoked (currentFrameTime - previousFrame)) ;;
  Render ;;
  id <- fresh ;;
  emit (RequestAnimationFrame id) ;;
  update (set_nextFrameHandle (Obj id)).

(** [new Model(gl, vertices, indices, normals, texCoords)] *)
Definition new_Model {O : Type} (vertices : list R) (indices : list N)
    (normals texCoords : list R) : js (state O) Model :=
  vbo_ <- fresh ;; gl (createBuffer vbo_) ;;
  ibo_ <- fresh ;; gl (createBuffer ibo_) ;;
  nbo_ <- fresh ;; gl (createBuffer nbo_) ;;
  tbo_ <- fresh ;; gl (createBuffer tbo_) ;;
  gl (bindBuffer ARRAY_BUFFER (Obj vbo_)) ;;
  gl (bufferData_STATIC ARRAY_BUFFER (Float32Array vertices)) ;;
  gl (bindBuffer ARRAY_BUFFER (Obj tbo_)) ;;
  gl (bufferData_STATIC ARRAY_BUFFER (Float32Array texCoords)) ;;
  gl (bindBuffer ARRAY_BUFFER (Obj nbo_)) ;;
  gl (bufferData_STATIC ARRAY_BUFFER (Float32Array normals)) ;;
  gl (bindBuffer ELEMENT_ARRAY_BUFFER (Obj ibo_)) ;;
  gl (bufferData_STATIC ELEMENT_ARRAY_BUFFER (new_Uint16Array indices)) ;;
  gl (bindBuffer ARRAY_BUFFER Null) ;;
  gl (bindBuffer ELEMENT_ARRAY_BUFFER Null) ;;
  ret (mkModel vbo_ ibo_ nbo_ tbo_ (List.length indices) mat4.create).


(** [request.onload]; the result is the parsed model the registered
    [image.onload] handler will work on, if an image was requested. *)
Definition request_onload (imgURL : string) (status : nat)
    (responseText : string) : js (state Scene) (option parsed) :=
  if ((199 <? status) && (status <? 300))%nat then
    try_catch
      (modelJSON <- match JSON_parse responseText with
                    | Malformed message => throw (SyntaxError message)
                    | other => ret other
                    end ;;
       emit (ImageRequested imgURL) ;;
       ret (Some modelJSON))
      (fun e => console_error (LogException e) ;; ret None)
  else
    console_error (LogNumber status) ;; ret None.

(** [image.onload] inside [AddModel] *)
Definition image_onload (id imgURL : string) (modelJSON : parsed)
    (callback : callback) : js (state Scene) unit :=
  g <- match modelJSON with
       | ThreeJS g => ret g
       | _ => throw (TypeError "modelJSON.data.attributes.position.array")
       end ;;
  model <- new_Model (position_array g) (index_array g)
                     (normal_array g) (uv_array g) ;;
  me <- get_this ;;
  models_ <- deref "me.models" (models me) ;;
  update (set_models (Obj (JSObject.set id model models_))) ;;
  texture <- fresh ;;
  gl (createTexture texture) ;;
  me <- get_this ;;
  textures_ <- deref "me.textures" (textures me) ;;
  update (set_textures (Obj (JSObject.set id texture textures_))) ;;
  gl (bindTexture_2D (Obj texture)) ;;
  gl (pixelStorei_FLIP_Y true) ;;
  gl (texParameteri_2D TEXTURE_WRAP_S CLAMP_TO_EDGE) ;;
  gl (texParameteri_2D TEXTURE_WRAP_T CLAMP_TO_EDGE) ;;
  gl (texParameteri_2D TEXTURE_MIN_FILTER LINEAR) ;;
  gl (texParameteri_2D TEXTURE_MAG_FILTER LINEAR) ;;
  gl (texImage2D_RGBA imgURL) ;;
  gl (bindTexture_2D Null) ;;
  invoke callback.

End Methods.

(** the models object after the given registrations, oldest first *)
Definition registered {V : Type} (regs : list (string * V)) : JSObject.t V :=
  fold_left (fun o kv => JSObject.set (fst kv) (snd kv) o) regs JSObject.empty.

(** every build step of [Load] succeeds on this context *)
Definition build_ok (context : driver) : bool :=
  COMPILE_STATUS context VERTEX_SHADER vertexShaderText
  && COMPILE_STATUS context FRAGMENT_SHADER fragmentShaderText
  && LINK_STATUS context vertexShaderText fragmentShaderText
  && VALIDATE_STATUS context vertexShaderText fragmentShaderText.

(** the calls of [Render] before its loop over the models *)
Definition setup_calls (context : driver) (p : Program) (proj view : mat4.t)
  : list glcall :=
  [ enable DEPTH_TEST;
    enable CULL_FACE;
    frontFace_CCW;
    cullFace_BACK;
    viewport 0 0 (clientWidth context) (clientHeight context);
    clearColor 0 0 0 (3 / 10);
    clear_DEPTH_COLOR;
    useProgram (Obj (program_handle p));
    uniformMatrix4fv (u_mProj p) proj;
    uniformMatrix4fv (u_mView p) view;
    uniform3f (u_ambientLightIntensity p) (2 / 10) (2 / 10) (2 / 10);
    uniform3f (u_sunDirection p) 3 4 (-2);
    uniform3f (u_sunColor p) (9 / 10) (9 / 10) (9 / 10) ].

(** the calls of one turn of that loop up to its draw call: the texture,
    the world matrix, the three attribute buffers, the index buffer *)
Definition mesh_bindings (p : Program) (texture : slot handle) (m : Model)
  : list glcall :=
  [ bindTexture_2D texture;
    activeTexture_0;
    uniformMatrix4fv (u_mWorld p) (world m);
    bindBuffer ARRAY_BUFFER (Obj (vbo m));
    vertexAttribPointer_FLOAT (a_vPos p) 3 (3 * 4) 0;
    enableVertexAttribArray (a_vPos p);
    bindBuffer ARRAY_BUFFER (Obj (tbo m));
    vertexAttribPointer_FLOAT (a_vTexCoord p) 2 (2 * 4) 0;
    enableVertexAttribArray (a_vTexCoord p);
    bindBuffer ARRAY_BUFFER (Obj (nbo m));
    vertexAttribPointer_FLOAT (a_vNorm p) 3 (3 * 4) 0;
    enableVertexAttribArray (a_vNorm p);
    bindBuffer ARRAY_BUFFER Null;
    bindBuffer ELEMENT_ARRAY_BUFFER (Obj (ibo m)) ].

(** one turn of the loop: the bindings, the draw call, the unbinding *)
Definition mesh_calls (p : Program) (textures_ : JSObject.t handle)
    (entry : string * Model) : list glcall :=
  mesh_bindings p (JSObject.get (fst entry) textures_) (snd entry)
  ++ [ drawElements_TRIANGLES (nPoints (snd entry)) 0;
       bindBuffer ELEMENT_ARRAY_BUFFER Null ].

(** the element counts of the indexed draw calls among the events *)
Fixpoint draw_counts (evs : list event) : list nat :=
  match evs with
  | [] => []
  | GL (drawElements_TRIANGLES count _) :: rest => count :: draw_counts rest
  | _ :: rest => draw_counts rest
  end.

End Tree.

(** ** The Phong renderer and its shaders *)

Module Phong.

(** [vertexShaderText] *)
Definition vertexShaderText : string :=
"
precision mediump float;

attribute vec3 a_vertPosition;
attribute vec2 a_vertTexCoord;
attribute vec3 a_vertNormal;

varying vec2 v_fragTexCoord;
varying vec3 v_fragNormal;
varying vec3 v_fragPosition;

uniform mat4 u_world;
uniform mat4 u_view;
uniform mat4 u_proj;

void main()
{
    vec4 vertPosition = vec4(a_vertPosition, 1.0);
    vec3 surfacePosition = (u_world * vertPosition).xyz;

    v_fragPosition = surfacePosition;
    v_fragNormal = (u_world * vec4(a_vertNormal, 0.0)).xyz;
    v_fragTexCoord = a_vertTexCoord;

    gl_Position = u_proj * u_view * u_world * vertPosition;
}
".

(** [fragmentShaderText] *)
Definition fragmentShaderText : string :=
"
precision mediump float;

varying vec2 v_fragTexCoord;
varying vec3 v_fragNormal;
varying vec3 v_fragPosition;

uniform vec3 u_viewPosition;

#define NUM_POINT_LIGHTS 2
struct PointLight {
    vec3 position;

    vec3 ambient;
    vec3 diffuse;
    vec3 specular;

    float constant;
    float linear;
    float quadratic;
};
uniform PointLight u_pointLights[NUM_POINT_LIGHTS];

#define NUM_DIR_LIGHTS 1
struct DirLight {
    vec3 direction;

    vec3 ambient;
    vec3 diffuse;
    vec3 specular;
};
uniform DirLight u_dirLights[NUM_DIR_LIGHTS];

#define NUM_SPOT_LIGHTS 1
struct SpotLight {
    vec3 position;
    vec3 direction;

    vec3 ambient;
    vec3 diffuse;
    vec3 specular;

    float constant;
    float linear;
    float quadratic;

    float innerCutOff;
    float outerCutOff;
};
uniform SpotLight u_spotLights[NUM_SPOT_LIGHTS];

struct Material {
    sampler2D diffuse;
    sampler2D specular;
    float shine;
};
uniform Material u_material;


// Function prototypes
vec3 CalcPointLight(PointLight light, vec3 normal, vec3 fragPos, vec3 viewDir);
vec3 CalcDirLight(DirLight light, vec3 normal, vec3 viewDir);
vec3 CalcSpotLight(SpotLight light, vec3 normal, vec3 fragPos, vec3 viewDir);

void main()
{
    // properties
    vec3 norm = normalize(v_fragNormal);
    vec3 viewDir = normalize(u_viewPosition - v_fragPosition);

    vec3 result = vec3(0.0);

    // Directional lights
    for(int i = 0; i < NUM_DIR_LIGHTS; i++)
        result += CalcDirLight(u_dirLights[i], norm, viewDir);

    // Point lights
    for(int i = 0; i < NUM_POINT_LIGHTS; i++)
        result += CalcPointLight(u_pointLights[i], norm, v_fragPosition, viewDir);

    // Spot lights
    for(int i = 0; i < NUM_SPOT_LIGHTS; i++)
        result += CalcSpotLight(u_spotLights[i], norm, v_fragPosition, viewDir);

    gl_FragColor = vec4(result, 1.0);
}

vec3 CalcPointLight(PointLight light, vec3 normal, vec3 fragPos, vec3 viewDir) {
  vec3 lightDir = normalize(light.position - fragPos);

  // diffuse shading
  float diff = max(dot(normal, lightDir), 0.0);

  // specular shading
  vec3 reflectDir = reflect(-lightDir, normal);
  float spec = pow(max(dot(viewDir, reflectDir), 0.0), u_material.shine);

  // attenuation
  float distance    = length(light.position - fragPos);
  float attenuation = 1.0 / (light.constant + light.linear * distance +
               light.quadratic * (distance * distance));

  // combine results
  vec3 ambient  = light.ambient  * vec3(texture2D(u_material.diffuse, v_fragTexCoord));
  vec3 diffuse  = light.diffuse  * diff * vec3(texture2D(u_material.diffuse, v_fragTexCoord));
  vec3 specular = light.specular * spec * vec3(texture2D(u_material.specular, v_fragTexCoord));
  ambient  *= attenuation;
  diffuse  *= attenuation;
  specular *= attenuation;
  return (ambient + diffuse + specular);
}

vec3 CalcDirLight(DirLight light, vec3 normal, vec3 viewDir) {
    vec3 lightDir = normalize(-light.direction);

    // diffuse shading
    float diff = max(dot(normal, lightDir), 0.0);

    // specular shading
    vec3 reflectDir = reflect(-lightDir, normal);
    float spec = pow(max(dot(viewDir, reflectDir), 0.0), u_material.shine);

    // combine results
    vec3 ambient  = light.ambient  * vec3(texture2D(u_material.diffuse, v_fragTexCoord));
    vec3 diffuse  = light.diffuse  * diff * vec3(texture2D(u_material.diffuse, v_fragTexCoord));
    vec3 specular = light.specular * spec * vec3(texture2D(u_material.specular, v_fragTexCoord));
    return (ambient + diffuse + specular);
}

vec3 CalcSpotLight(SpotLight light, vec3 normal, vec3 fragPos, vec3 viewDir) {

    vec3 lightDir = normalize(light.position - fragPos);

    // diffuse shading
    float diff = max(dot(normal, lightDir), 0.0);

    // specular shading
    vec3 reflectDir = reflect(-lightDir, normal);
    float spec = pow(max(dot(viewDir, reflectDir), 0.0), u_material.shine);

    // attenuation
    float distance    = length(light.position - fragPos);
    float attenuation = 1.0 / (light.constant + light.linear * distance +
                 light.quadratic * (distance * distance));

    // combine results
    vec3 ambient  = light.ambient  * vec3(texture2D(u_material.diffuse, v_fragTexCoord));
    vec3 diffuse  = light.diffuse  * diff * vec3(texture2D(u_material.diffuse, v_fragTexCoord));
    vec3 specular = light.specular * spec * vec3(texture2D(u_material.specular, v_fragTexCoord));
    ambient  *= attenuation;
    diffuse  *= attenuation;
    specular *= attenuation;

    // Clamp for spot light
    float theta = dot(lightDir, normalize(-light.direction));
    float epsilon   = light.innerCutOff- light.outerCutOff;
    float intensity = clamp((theta - light.outerCutOff) / epsilon, 0.0, 1.0);

    diffuse  *= intensity;
    specular *= intensity;

    return (ambient + diffuse + specular);
}

".

(** a value stored under [me.uniforms] *)
Inductive uniform_entry : Type :=
| Location (l : slot handle)
| AttribLocation (a : Z)
| LocationTable (rows : list (list (slot handle))).

(** [me.attribs] *)
Record attribs_table : Type := mkAttribs {
  vPos : Z;
  vNorm : Z;
  vTexCoord : Z
}.

(** The fields of a [renderer] object. *)
Record renderer_object : Type := mkRenderer {
  program : slot handle;
  uniforms : slot (JSObject.t uniform_entry);
  attribs : slot attribs_table
}.

(** the object [new] hands to the constructor: no own fields, and
    [renderer.prototype] carries only [render] *)
Definition blank : renderer_object := mkRenderer Undefined Undefined Undefined.

Definition set_program (v : slot handle) (me : renderer_object) : renderer_object :=
  mkRenderer v (uniforms me) (attribs me).

Definition set_uniforms (v : slot (JSObject.t uniform_entry))
    (me : renderer_object) : renderer_object :=
  mkRenderer (program me) v (attribs me).

Definition set_attribs (v : slot attribs_table) (me : renderer_object) : renderer_object :=
  mkRenderer (program me) (uniforms me) v.

(** the global variable [scene] as the constructor finds it: not declared
    ([None]), or holding a value whose [pointLights] may hold an array of
    some length *)
Definition global_scene : Type := option (slot (slot nat)).

Definition decimal (n : nat) : string := NilEmpty.string_of_uint (Nat.to_uint n).

Section Constructor.

Variable context : driver.
Variable scene : global_scene.

Local Open Scope js_scope.

(** [me.uniforms.name = value] *)
Definition assign_uniform (name : string) (value : uniform_entry)
  : js (state renderer_object) unit :=
  me <- get_this ;;
  table <- deref "me.uniforms" (uniforms me) ;;
  update (set_uniforms (Obj (JSObject.set name value table))).

(** [me.uniforms.pointLights.push(uniforms)] *)
Definition push_pointLight (row : list (slot handle))
  : js (state renderer_object) unit :=
  me <- get_this ;;
  table <- deref "me.uniforms" (uniforms me) ;;
  match JSObject.get "pointLights" table with
  | Obj (LocationTable rows) =>
      update (set_uniforms
                (Obj (JSObject.set "pointLights" (LocationTable (rows ++ [row])) table)))
  | _ => throw (TypeError "me.uniforms.pointLights.push")
  end.

Definition pointLight_location (i : nat) (field : string) : slot handle :=
  getUniformLocation context
    (String.append "u_pointLights[" (String.append (decimal i) (String.append "]." field))).

(** [var renderer = function (gl) { ... }], run by [new] *)
Definition renderer : js (state renderer_object) unit :=
  vs <- fresh ;;
  gl (createShader VERTEX_SHADER vs) ;;
  gl (shaderSource vs vertexShaderText) ;;
  gl (compileShader vs) ;;
  if negb (COMPILE_STATUS context VERTEX_SHADER vertexShaderText) then
    console_error
      (LogText (String.append "Error compiling vertex shader: "
                  (getShaderInfoLog context VERTEX_SHADER vertexShaderText)))
  else
  fs <- fresh ;;
  gl (createShader FRAGMENT_SHADER fs) ;;
  gl (shaderSource fs fragmentShaderText) ;;
  gl (compileShader fs) ;;
  if negb (COMPILE_STATUS context FRAGMENT_SHADER fragmentShaderText) then
    console_error
      (LogText (String.append "Error compiling fragment shader: "
                  (getShaderInfoLog context FRAGMENT_SHADER fragmentShaderText)))
  else
  prog <- fresh ;;
  gl (createProgram prog) ;;
  gl (attachShader prog vs) ;;
  gl (attachShader prog fs) ;;
  gl (linkProgram prog) ;;
  if negb (LINK_STATUS context vertexShaderText fragmentShaderText) then
    console_error
      (LogText (String.append "Error linking program: "
                  (linkInfoLog context vertexShaderText fragmentShaderText)))
  else
  gl (validateProgram prog) ;;
  if negb (VALIDATE_STATUS context vertexShaderText fragmentShaderText) then
    console_error
      (LogText (String.append "Error validating program: "
                  (validateInfoLog context vertexShaderText fragmentShaderText)))
  else
  update (set_program (Obj prog)) ;;
  assign_uniform "pointLights" (LocationTable []) ;;
  scene_ <- match scene with
            | None => throw (ReferenceError "scene is not defined")
            | Some v => deref "scene.pointLights" v
            end ;;
  len <- deref "scene.pointLights.length" scene_ ;;
  for_each (seq 0 len) (fun i =>
    push_pointLight
      [ pointLight_location i "position";
        pointLight_location i "ambient";
        pointLight_location i "diffuse";
        pointLight_location i "specular";
        pointLight_location i "constant";
        pointLight_location i "linear";
        pointLight_location i "quadratic" ]) ;;
  assign_uniform "mProj" (Location (getUniformLocation context "u_proj")) ;;
  assign_uniform "mView" (Location (getUniformLocation context "u_view")) ;;
  assign_uniform "mWorld" (Location (getUniformLocation context "u_world")) ;;
  assign_uniform "viewPos" (Location (getUniformLocation context "u_viewPosition")) ;;
  assign_uniform "materialShine"
    (AttribLocation (getAttribLocation context "a_vertPosition")) ;;
  assign_uniform "materialDiffuse"
    (Location (getUniformLocation context "u_material.diffuse")) ;;
  assign_uniform "materialSpecular"
    (Location (getUniformLocation context "u_material.specular")) ;;
  update (set_attribs (Obj (mkAttribs
    (getAttribLocation context "a_vertPosition")
    (getAttribLocation context "a_vertNormal")
    (getAttribLocation context "a_vertTexCoord")))).

(** [new renderer(gl)]: the completion of the constructor call and the
    object as the constructor left it *)
Definition new_renderer (next : handle)
  : completion unit * state renderer_object :=
  renderer (mkState blank next []).

End Constructor.

End Phong.

(** ** The [Material] class *)

Module Materials.

Record Material : Type := mkMaterial {
  program : slot handle
}.

Section Class.

Variable context : driver.

Local Open Scope js_scope.

(** [getShader(script, type)] *)
Definition getShader (script : string) (type : shader_kind)
  : js (state Material) (slot handle) :=
  output <- fresh ;;
  gl (createShader type output) ;;
  gl (shaderSource output script) ;;
  gl (compileShader output) ;;
  if negb (COMPILE_STATUS context type script) then
    console_error
      (LogText (String.append "Shader Error: "
                  (String (ascii_of_nat 10) (getShaderInfoLog context type script)))) ;;
    ret Null
  else ret (Obj output).

(** [constructor(gl, vs, fs)]; its [return null] does not change what
    [new Material(...)] evaluates to, which is the object under
    construction. *)
Definition constructor (vs fs : string) : js (state Material) unit :=
  vsShader <- getShader vs VERTEX_SHADER ;;
  fsShader <- getShader fs FRAGMENT_SHADER ;;
  match vsShader, fsShader with
  | Obj vsShader, Obj fsShader =>
      prog <- fresh ;;
      gl (createProgram prog) ;;
      update (fun _ => mkMaterial (Obj prog)) ;;
      gl (attachShader prog vsShader) ;;
      gl (attachShader prog fsShader) ;;
      gl (linkProgram prog) ;;
      if negb (LINK_STATUS context vs fs) then
        console_error
          (LogText (String.append "Cannot load shader: "
                      (String (ascii_of_nat 10) (linkInfoLog context vs fs))))
      else ret tt
  | _, _ => ret tt
  end.

(** [new Material(gl, vs, fs)] *)
Definition new_Material (vs fs : string) (next : handle)
  : completion unit * state Material :=
  constructor vs fs (mkState (mkMaterial Undefined) next []).

(** both shaders compile and the program links on this context *)
Definition build_ok (vs fs : string) : bool :=
  COMPILE_STATUS context VERTEX_SHADER vs
  && COMPILE_STATUS context FRAGMENT_SHADER fs
  && LINK_STATUS context vs fs.

End Class.

End Materials.

(** ** The fragment shaders, as functions on real vectors *)

Module GLSL.

(** [normalize(v)] *)
Definition normalize (v : vec3.t) : vec3.t := vec3.scale v (1 / vec3.length v).

(** [-v] *)
Definition neg (v : vec3.t) : vec3.t := vec3.scale v (-1).

(** [reflect(I, N) = I - 2 * dot(N, I) * N] *)
Definition reflect (I N : vec3.t) : vec3.t :=
  vec3.subtract I (vec3.scale N (2 * vec3.dot N I)).

(** componentwise product of two [vec3] *)
Definition mul (a b : vec3.t) : vec3.t :=
  vec3.fromValues (vec3.x a * vec3.x b) (vec3.y a * vec3.y b)
                  (vec3.z a * vec3.z b).

(** [vec3(s)], also what a float becomes when added to a [vec3] *)
Definition splat (s : R) : vec3.t := vec3.fromValues s s s.

(** [pow(x, y)] for a base that is not negative *)
Definition pow (x y : R) : R :=
  if Rlt_dec 0 x then Rpower x y else 0.

Record vec4 : Type := mkVec4 { rgb : vec3.t; alpha : R }.

End GLSL.

(** [mainFragmentShaderText] of gl-scene.js: the lighting pass of the
    gbuffer example.  The three texel fetches and the texture lookup are
    the arguments [position], [normalTexel] and [baseColor]. *)
Module Gbuffer.

(** [float attenuation = 1.0 - length(lightVec);] *)
Definition attenuation (uLight_position position : vec3.t) : R :=
  let lightVec := vec3.subtract uLight_position position in
  1 - vec3.length lightVec.

(** [ambient + diffuse + specular] *)
Definition shade (uLight_position uLight_color uEyePosition
    position normalTexel : vec3.t) : vec3.t :=
  let normal := GLSL.normalize normalTexel in
  let eyeDirection := GLSL.normalize (vec3.subtract uEyePosition position) in
  let lightVec := vec3.subtract uLight_position position in
  let lightDirection := GLSL.normalize lightVec in
  let reflectionDirection := GLSL.reflect (GLSL.neg lightDirection) normal in
  let nDotL := Rmax (vec3.dot lightDirection normal) 0 in
  let diffuse := vec3.scale uLight_color nDotL in
  let ambient := 1 / 10 in
  let specular :=
    vec3.scale uLight_color
      (Rmax (vec3.dot reflectionDirection eyeDirection) 0 ^ 20) in
  vec3.add (vec3.add (GLSL.splat ambient) diffuse) specular.

(** [fragColor = vec4(attenuation * (ambient + diffuse + specular)
                      * baseColor.rgb, baseColor.a);] *)
Definition main (uLight_position uLight_color uEyePosition
    position normalTexel : vec3.t) (baseColor : GLSL.vec4) : GLSL.vec4 :=
  GLSL.mkVec4
    (GLSL.mul
       (vec3.scale
          (shade uLight_position uLight_color uEyePosition position normalTexel)
          (attenuation uLight_position position))
       (GLSL.rgb baseColor))
    (GLSL.alpha baseColor).

End Gbuffer.

(** [CalcPointLight] of the Phong fragment shader.  The two texture lookups
    are the arguments [texDiffuse] and [texSpecular]. *)
Module PhongShader.

Record PointLight : Type := mkPointLight {
  position : vec3.t;
  ambient : vec3.t;
  diffuse : vec3.t;
  specular : vec3.t;
  constant : R;
  linear : R;
  quadratic : R
}.

(** [float distance = length(light.position - fragPos);
     float attenuation = 1.0 / (light.constant + light.linear * distance
                                + light.quadratic * (distance * distance));] *)
Definition attenuation (light : PointLight) (fragPos : vec3.t) : R :=
  let distance := vec3.length (vec3.subtract (position light) fragPos) in
  1 / (constant light + linear light * distance
       + quadratic light * (distance * distance)).

Definition CalcPointLight (light : PointLight) (normal fragPos viewDir : vec3.t)
    (shine : R) (texDiffuse texSpecular : vec3.t) : vec3.t :=
  let lightDir := GLSL.normalize (vec3.subtract (position light) fragPos) in
  let diff := Rmax (vec3.dot normal lightDir) 0 in
  let reflectDir := GLSL.reflect (GLSL.neg lightDir) normal in
  let spec := GLSL.pow (Rmax (vec3.dot viewDir reflectDir) 0) shine in
  let ambient_ := GLSL.mul (ambient light) texDiffuse in
  let diffuse_ := GLSL.mul (vec3.scale (diffuse light) diff) texDiffuse in
  let specular_ := GLSL.mul (vec3.scale (specular light) spec) texSpecular in
  let ambient_ := vec3.scale ambient_ (attenuation light fragPos) in
  let diffuse_ := vec3.scale diffuse_ (attenuation light fragPos) in
  let specular_ := vec3.scale specular_ (attenuation light fragPos) in
  vec3.add (vec3.add ambient_ diffuse_) specular_.

End PhongShader.

(** ** Sample contexts and inputs *)

(** a context on which every shader compiles and every program links and
    validates, with a 640 by 480 canvas *)
Definition healthy_context : driver :=
  mkDriver (fun _ _ => true) (fun _ _ => EmptyString)
           (fun _ _ => true) (fun _ _ => EmptyString)
           (fun _ _ => true) (fun _ _ => EmptyString)
           (fun _ => Obj 1%nat) (fun _ => 0%Z) 640 480.

(** a context that rejects every vertex shader *)
Definition no_vertex_context : driver :=
  mkDriver (fun kind _ => match kind with
                          | VERTEX_SHADER => false
                          | FRAGMENT_SHADER => true
                          end)
           (fun _ _ => "ERROR: 0:1: syntax error"%string)
           (fun _ _ => true) (fun _ _ => EmptyString)
           (fun _ _ => true) (fun _ _ => EmptyString)
           (fun _ => Obj 1%nat) (fun _ => 0%Z) 640 480.

(** a context that compiles every shader and links no program *)
Definition no_link_context : driver :=
  mkDriver (fun _ _ => true) (fun _ _ => EmptyString)
           (fun _ _ => false) (fun _ _ => "link failed"%string)
           (fun _ _ => true) (fun _ _ => EmptyString)
           (fun _ => Obj 1%nat) (fun _ => 0%Z) 640 480.


(** a context that compiles every shader and validates no program *)
Definition no_validate_context : driver :=
  mkDriver (fun _ _ => true) (fun _ _ => EmptyString)
           (fun _ _ => true) (fun _ _ => EmptyString)
           (fun _ _ => false) (fun _ _ => "validation failed"%string)
           (fun _ => Obj 1%nat) (fun _ => 0%Z) 640 480.

(** a single triangle *)
Definition triangle : Tree.geometry :=
  Tree.mkGeometry [0; 0; 0; 1; 0; 0; 0; 1; 0] [0%N; 1%N; 2%N]
                  [0; 0; 1; 0; 0; 1; 0; 0; 1] [0; 0; 1; 0; 0; 1].

(** the scene after [Load] on the healthy context *)
Definition loaded_scene : state Tree.Scene :=
  snd (Tree.Load healthy_context Function (mkState Tree.new_Scene 0%nat [])).

(** the loaded scene after the image of a model "tree" has arrived *)
Definition tree_scene : state Tree.Scene :=
  snd (Tree.image_onload "tree" "./models/tree.png" (Tree.ThreeJS triangle)
         Function loaded_scene).

(** two models with three and six indices *)
Definition small_model : Tree.Model := Tree.mkModel 1%nat 2%nat 3%nat 4%nat 3%nat mat4.create.

Definition large_model : Tree.Model := Tree.mkModel 5%nat 6%nat 7%nat 8%nat 6%nat mat4.create.


(** the program [Load] sets up on the healthy context *)
Definition sample_program : Tree.Program :=
  Tree.mkProgram 3%nat (Obj 1%nat) (Obj 1%nat) (Obj 1%nat) (Obj 1%nat)
                 (Obj 1%nat) (Obj 1%nat) 0%Z 0%Z 0%Z.

(** a running scene in which the model "2" was added before the model "1" *)
Definition numbered_scene : state Tree.Scene :=
  mkState
    (Tree.mkScene
       (Obj (Tree.registered [("2"%string, small_model); ("1"%string, large_model)]))
       (Obj (Tree.registered [("2"%string, 9%nat); ("1"%string, 10%nat)]))
       (Obj sample_program)
       (Obj (new_Camera (vec3.fromValues 10 0 0) (vec3.fromValues 0 0 0)
                        (vec3.fromValues 0 1 0)))
       (Obj mat4.create) (Obj mat4.create) (Obj 11%nat))
    11%nat [].

(** ** More of the tree scene: placing a model, the two shaders *)

(** [mat4.translate(out, a, v)] with [out] another array than [a] *)
Definition mat4_translate (a : mat4.t) (v : vec3.t) : mat4.t :=
  let x := vec3.x v in
  let y := vec3.y v in
  let z := vec3.z v in
  mat4.mk (mat4.m0 a) (mat4.m1 a) (mat4.m2 a) (mat4.m3 a)
          (mat4.m4 a) (mat4.m5 a) (mat4.m6 a) (mat4.m7 a)
          (mat4.m8 a) (mat4.m9 a) (mat4.m10 a) (mat4.m11 a)
          (mat4.m0 a * x + mat4.m4 a * y + mat4.m8 a * z + mat4.m12 a)
          (mat4.m1 a * x + mat4.m5 a * y + mat4.m9 a * z + mat4.m13 a)
          (mat4.m2 a * x + mat4.m6 a * y + mat4.m10 a * z + mat4.m14 a)
          (mat4.m3 a * x + mat4.m7 a * y + mat4.m11 a * z + mat4.m15 a).

(** [Model.prototype.position]: the world matrix becomes the translation
    of a fresh identity. *)
Definition Model_position (place : vec3.t) (m : Tree.Model) : Tree.Model :=
  let origin := mat4.create in
  Tree.mkModel (Tree.vbo m) (Tree.ibo m) (Tree.nbo m) (Tree.tbo m)
               (Tree.nPoints m) (mat4_translate origin place).

(** The shaders [Load] compiles, as functions on real vectors and
    matrices. *)
Module TreeShader.

(** a GLSL [vec4] with four real components *)
Record vec4 : Type := mkVec4 { vx : R; vy : R; vz : R; vw : R }.

(** [vec4(v, w)] *)
Definition extend (v : vec3.t) (w : R) : vec4 :=
  mkVec4 (vec3.x v) (vec3.y v) (vec3.z v) w.

(** [v.xyz] *)
Definition xyz (v : vec4) : vec3.t := vec3.fromValues (vx v) (vy v) (vz v).

(** [m * v] for a column-major [mat4] *)
Definition mat_vec (m : mat4.t) (v : vec4) : vec4 :=
  mkVec4
    (mat4.m0 m * vx v + mat4.m4 m * vy v + mat4.m8 m * vz v + mat4.m12 m * vw v)
    (mat4.m1 m * vx v + mat4.m5 m * vy v + mat4.m9 m * vz v + mat4.m13 m * vw v)
    (mat4.m2 m * vx v + mat4.m6 m * vy v + mat4.m10 m * vz v + mat4.m14 m * vw v)
    (mat4.m3 m * vx v + mat4.m7 m * vy v + mat4.m11 m * vz v + mat4.m15 m * vw v).

(** [a * b] for two [mat4] *)
Definition mat_mul (a b : mat4.t) : mat4.t :=
  let c0 := mat_vec a (mkVec4 (mat4.m0 b) (mat4.m1 b) (mat4.m2 b) (mat4.m3 b)) in
  let c1 := mat_vec a (mkVec4 (mat4.m4 b) (mat4.m5 b) (mat4.m6 b) (mat4.m7 b)) in
  let c2 := mat_vec a (mkVec4 (mat4.m8 b) (mat4.m9 b) (mat4.m10 b) (mat4.m11 b)) in
  let c3 := mat_vec a (mkVec4 (mat4.m12 b) (mat4.m13 b) (mat4.m14 b) (mat4.m15 b)) in
  mat4.mk (vx c0) (vy c0) (vz c0) (vw c0)
          (vx c1) (vy c1) (vz c1) (vw c1)
          (vx c2) (vy c2) (vz c2) (vw c2)
          (vx c3) (vy c3) (vz c3) (vw c3).

(** what the vertex shader hands on: [fragTexCoord], [fragNormal],
    [gl_Position] *)
Record vertex_out : Type := mkVertexOut {
  fragTexCoord : R * R;
  fragNormal : vec3.t;
  gl_Position : vec4
}.

(** [main] of the vertex shader *)
Definition vertex_main (mWorld mView mProj : mat4.t)
    (vertPosition : vec3.t) (vertTexCoord : R * R) (vertNormal : vec3.t)
  : vertex_out :=
  mkVertexOut
    vertTexCoord
    (xyz (mat_vec mWorld (extend vertNormal 0)))
    (mat_vec (mat_mul (mat_mul mProj mView) mWorld) (extend vertPosition 1)).

(** the sum [ambientLightIntensity + sun.color * max(dot(fragNormal,
    normSunDir), 0.0)] of the fragment shader *)
Definition lightIntensity (ambientLightIntensity sun_direction sun_color
    fragNormal_ : vec3.t) : vec3.t :=
  let normSunDir := GLSL.normalize sun_direction in
  vec3.add ambientLightIntensity
           (vec3.scale sun_color (Rmax (vec3.dot fragNormal_ normSunDir) 0)).

(** [main] of the fragment shader; [texel] is the texture lookup.  The
    shader also computes [surfaceNormal = normalize(fragNormal)] and does
    not use it. *)
Definition fragment_main (ambientLightIntensity sun_direction sun_color
    fragNormal_ : vec3.t) (texel : GLSL.vec4) : GLSL.vec4 :=
  GLSL.mkVec4
    (GLSL.mul (GLSL.rgb texel)
              (lightIntensity ambientLightIntensity sun_direction sun_color
                              fragNormal_))
    (GLSL.alpha texel).

End TreeShader.

(** ** More of the Phong fragment shader: the spot light *)

Module PhongSpot.

Record SpotLight : Type := mkSpotLight {
  position : vec3.t;
  direction : vec3.t;
  ambient : vec3.t;
  diffuse : vec3.t;
  specular : vec3.t;
  constant : R;
  linear : R;
  quadratic : R;
  innerCutOff : R;
  outerCutOff : R
}.

(** [clamp(x, 0.0, 1.0)] *)
Definition clamp01 (x : R) : R := Rmin (Rmax x 0) 1.

(** the point light with the position, colours and falloff of a spot
    light *)
Definition as_point (light : SpotLight) : PhongShader.PointLight :=
  PhongShader.mkPointLight (position light) (ambient light) (diffuse light)
    (specular light) (constant light) (linear light) (quadratic light).

(** [theta = dot(lightDir, normalize(-light.direction))] *)
Definition theta (light : SpotLight) (fragPos : vec3.t) : R :=
  let lightDir := GLSL.normalize (vec3.subtract (position light) fragPos) in
  vec3.dot lightDir (GLSL.normalize (GLSL.neg (direction light))).

(** [CalcSpotLight] *)
Definition CalcSpotLight (light : SpotLight) (normal fragPos viewDir : vec3.t)
    (shine : R) (texDiffuse texSpecular : vec3.t) : vec3.t :=
  let lightDir := GLSL.normalize (vec3.subtract (position light) fragPos) in
  let diff := Rmax (vec3.dot normal lightDir) 0 in
  let reflectDir := GLSL.reflect (GLSL.neg lightDir) normal in
  let spec := GLSL.pow (Rmax (vec3.dot viewDir reflectDir) 0) shine in
  let distance := vec3.length (vec3.subtract (position light) fragPos) in
  let attenuation :=
    1 / (constant light + linear light * distance
         + quadratic light * (distance * distance)) in
  let ambient_ := GLSL.mul (ambient light) texDiffuse in
  let diffuse_ := GLSL.mul (vec3.scale (diffuse light) diff) texDiffuse in
  let specular_ := GLSL.mul (vec3.scale (specular light) spec) texSpecular in
  let ambient_ := vec3.scale ambient_ attenuation in
  let diffuse_ := vec3.scale diffuse_ attenuation in
  let specular_ := vec3.scale specular_ attenuation in
  let theta_ := vec3.dot lightDir (GLSL.normalize (GLSL.neg (direction light))) in
  let epsilon := innerCutOff light - outerCutOff light in
  let intensity := clamp01 ((theta_ - outerCutOff light) / epsilon) in
  let diffuse_ := vec3.scale diffuse_ intensity in
  let specular_ := vec3.scale specular_ intensity in
  vec3.add (vec3.add ambient_ diffuse_) specular_.

End PhongSpot.

(** ** The program set-up of gl-scene.js *)

Module GlScene.

Definition geoVertexShaderText : string :=
"#version 300 es

layout(std140, column_major) uniform;

layout(location=0) in vec4 aPosition;
layout(location=1) in vec3 aNormal;
layout(location=2) in vec4 aUV;

uniform Matrices {
    mat4 uModelMatrix;
    mat4 uMVP;
};

out vec4 vPosition;
out vec4 vNormal;
out vec4 vUV;

void main() {
    vPosition = uModelMatrix * aPosition;
    vNormal = uModelMatrix * vec4(aNormal, 0.0);
    vUV = aUV;
    gl_Position = uMVP * aPosition;
}".

Definition geoFragmentShaderText : string :=
"#version 300 es
precision highp float;

in vec4 vPosition;
in vec4 vNormal; 
in vec4 vUV;

layout(location=0) out vec4 fragPosition;
layout(location=1) out vec4 fragNormal;
layout(location=2) out vec4 fragUV; 

void main() {
    fragPosition = vPosition;
    fragNormal = vec4(normalize(vNormal.xyz), 0.0);
    fragUV = vUV;
}".

Definition mainVertexShaderText : string :=
"#version 300 es
layout(std140, column_major) uniform;

layout(location=0) in vec4 aPosition;

uniform LightUniforms {
    mat4 mvp;
    vec4 position;
    vec4 color;
} uLight; 

void main() {
    gl_Position = uLight.mvp * aPosition;
}".

Definition mainFragmentShaderText : string :=
"#version 300 es
precision highp float;

uniform LightUniforms {
    mat4 mvp; //projection * view * model
    vec4 position;
    vec4 color;
} uLight; 

uniform vec3 uEyePosition;

uniform sampler2D uPositionBuffer;
uniform sampler2D uNormalBuffer;
uniform sampler2D uUVBuffer;
uniform sampler2D uTextureMap;

out vec4 fragColor;

void main() {
    ivec2 fragCoord = ivec2(gl_FragCoord.xy);
    vec3 position = texelFetch(uPositionBuffer, fragCoord, 0).xyz;
    vec3 normal = normalize(texelFetch(uNormalBuffer, fragCoord, 0).xyz);
    vec2 uv = texelFetch(uUVBuffer, fragCoord, 0).xy;

    vec4 baseColor = texture(uTextureMap, uv);

    vec3 eyeDirection = normalize(uEyePosition - position);
    vec3 lightVec = uLight.position.xyz - position;
    float attenuation = 1.0 - length(lightVec);
    vec3 lightDirection = normalize(lightVec);
    vec3 reflectionDirection = reflect(-lightDirection, normal);
    float nDotL = max(dot(lightDirection, normal), 0.0);
    vec3 diffuse = nDotL * uLight.color.rgb;
    float ambient = 0.1;
    vec3 specular = pow(max(dot(reflectionDirection, eyeDirection), 0.0), 20.0) * uLight.color.rgb;

    fragColor = vec4(attenuation * (ambient + diffuse + specular) * baseColor.rgb, baseColor.a);
}".

Section Script.

Variable context : driver.

Local Open Scope js_scope.

(** One program set-up of the script: the vertex shader, the fragment
    shader, the program; each status is checked and a failure only written
    to the console.  The result is the program. *)
Definition program_setup (vertexText fragmentText : string)
  : js (state unit) handle :=
  vertexShader <- fresh ;;
  gl (createShader VERTEX_SHADER vertexShader) ;;
  gl (shaderSource vertexShader vertexText) ;;
  gl (compileShader vertexShader) ;;
  (if negb (COMPILE_STATUS context VERTEX_SHADER vertexText) then
     console_error (LogText (getShaderInfoLog context VERTEX_SHADER vertexText))
   else ret tt) ;;
  fragmentShader <- fresh ;;
  gl (createShader FRAGMENT_SHADER fragmentShader) ;;
  gl (shaderSource fragmentShader fragmentText) ;;
  gl (compileShader fragmentShader) ;;
  (if negb (COMPILE_STATUS context FRAGMENT_SHADER fragmentText) then
     console_error (LogText (getShaderInfoLog context FRAGMENT_SHADER fragmentText))
   else ret tt) ;;
  prog <- fresh ;;
  gl (createProgram prog) ;;
  gl (attachShader prog vertexShader) ;;
  gl (attachShader prog fragmentShader) ;;
  gl (linkProgram prog) ;;
  (if negb (LINK_STATUS context vertexText fragmentText) then
     console_error (LogText (linkInfoLog context vertexText fragmentText))
   else ret tt) ;;
  ret prog.

(** "GBUFFER PROGRAM SETUP": [geoProgram] *)
Definition geoProgram_setup : js (state unit) handle :=
  program_setup geoVertexShaderText geoFragmentShaderText.

(** "MAIN PROGRAM SETUP": [mainProgram] *)
Definition mainProgram_setup : js (state unit) handle :=
  program_setup mainVertexShaderText mainFragmentShaderText.

End Script.

(** the console entries among the events *)
Fixpoint console_errors (evs : list event) : list logged :=
  match evs with
  | [] => []
  | ConsoleError what :: rest => what :: console_errors rest
  | _ :: rest => console_errors rest
  end.

End GlScene.

(** ** The scene after a teardown *)

(** what [Unload] leaves of a scene: every field it tests and finds set is
    [null]; the textures are as they were *)
Definition torn_down (me : Tree.Scene) : Tree.Scene :=
  Tree.mkScene
    (if truthy (Tree.models me) then Null else Tree.models me)
    (Tree.textures me)
    (if truthy (Tree.program me) then Null else Tree.program me)
    (if truthy (Tree.camera me) then Null else Tree.camera me)
    (if truthy (Tree.viewMatrix me) then Null else Tree.viewMatrix me)
    (if truthy (Tree.projMatrix me) then Null else Tree.projMatrix me)
    (if truthy_number (Tree.nextFrameHandle me) then Null
     else Tree.nextFrameHandle me).

(** the frame [Pause] cancels, if one is scheduled *)
Definition cancelled (me : Tree.Scene) : list event :=
  match Tree.nextFrameHandle me with
  | Obj (S n) => [CancelAnimationFrame (S n)]
  | _ => []
  end.

(** ** More sample inputs *)

(** a spot light one unit above the origin, shining straight down, with
    cones of cosine 0.9 and 0.8 *)
Definition overhead_spot : PhongSpot.SpotLight :=
  PhongSpot.mkSpotLight (vec3.fromValues 0 0 1) (vec3.fromValues 0 0 (-1))
    (vec3.fromValues (1 / 10) (1 / 10) (1 / 10))
    (vec3.fromValues (8 / 10) (8 / 10) (8 / 10))
    (vec3.fromValues 1 1 1)
    1 (9 / 100) (32 / 1000) (9 / 10) (8 / 10).

(** * Properties *)

(** ** Vector algebra used by the camera proofs *)

Lemma vec3_ext (a b : vec3.t) :
  vec3.x a = vec3.x b -> vec3.y a = vec3.y b -> vec3.z a = vec3.z b -> a = b.
Proof.
  destruct a, b; simpl; intros; subst; reflexivity.
Qed.

Lemma squaredLength_nonneg (a : vec3.t) : 0 <= vec3.squaredLength a.
Proof.
  unfold vec3.squaredLength; nra.
Qed.



Lemma normalize_pos (a : vec3.t) :
  0 < vec3.squaredLength a ->
  vec3.normalize a = vec3.scale a (1 / sqrt (vec3.squaredLength a)).
Proof.
  intros H. unfold vec3.normalize, vec3.scale.
  destruct (Rlt_dec 0 (vec3.squaredLength a)); [reflexivity | contradiction].
Qed.











Lemma length_one (a : vec3.t) : vec3.squaredLength a = 1 -> vec3.length a = 1.
Proof.
  intros H. unfold vec3.length. rewrite H. apply sqrt_1.
Qed.






(** ** Camera construction *)

Lemma sqrt_of_square (s r : R) : 0 <= r -> s = r * r -> sqrt s = r.
Proof.
  intros Hr ->. now apply sqrt_square.
Qed.

Lemma normalize_known (a : vec3.t) (r : R) :
  0 < r -> vec3.squaredLength a = r * r ->
  vec3.normalize a = vec3.scale a (1 / r).
Proof.
  intros Hr Hs.
  assert (Hp : 0 < vec3.squaredLength a) by (rewrite Hs; nra).
  rewrite (normalize_pos _ Hp), (sqrt_of_square _ r); [reflexivity | lra | exact Hs].
Qed.

Lemma unit_or_zero_known (a b c r : R) :
  0 < r -> a * a + b * b + c * c = r * r ->
  mat4.unit_or_zero a b c = vec3.fromValues (a * (1 / r)) (b * (1 / r)) (c * (1 / r)).
Proof.
  intros Hr Hs. unfold mat4.unit_or_zero, mat4.hypot3.
  rewrite (sqrt_of_square _ r) by (lra || exact Hs).
  destruct (Req_dec_T r 0); [lra | reflexivity].
Qed.

Lemma lookAt_far (eye center up : vec3.t) :
  mat4.EPSILON <= Rabs (vec3.x eye - vec3.x center) ->
  mat4.lookAt eye center up = mat4.lookAt_body eye center up.
Proof.
  intros H. unfold mat4.lookAt.
  destruct (Rlt_dec (Rabs (vec3.x eye - vec3.x center)) mat4.EPSILON); [lra|].
  reflexivity.
Qed.

Lemma mat4_ext (a b : mat4.t) :
  mat4.m0 a = mat4.m0 b -> mat4.m1 a = mat4.m1 b ->
  mat4.m2 a = mat4.m2 b -> mat4.m3 a = mat4.m3 b ->
  mat4.m4 a = mat4.m4 b -> mat4.m5 a = mat4.m5 b ->
  mat4.m6 a = mat4.m6 b -> mat4.m7 a = mat4.m7 b ->
  mat4.m8 a = mat4.m8 b -> mat4.m9 a = mat4.m9 b ->
  mat4.m10 a = mat4.m10 b -> mat4.m11 a = mat4.m11 b ->
  mat4.m12 a = mat4.m12 b -> mat4.m13 a = mat4.m13 b ->
  mat4.m14 a = mat4.m14 b -> mat4.m15 a = mat4.m15 b -> a = b.
Proof.
  destruct a, b; simpl; intros; subst; reflexivity.
Qed.

(** The camera the scene starts with. *)
Lemma default_camera :
  new_Camera (vec3.fromValues 10 0 0) (vec3.fromValues 0 0 0)
             (vec3.fromValues 0 1 0)
  = mkCamera (vec3.fromValues 10 0 0) (vec3.fromValues (-1) 0 0)
             (vec3.fromValues 0 1 0) (vec3.fromValues 0 0 (-1)).
Proof.
  unfold new_Camera. f_equal.
  - rewrite (normalize_known _ 10) by (try lra; unfold vec3.squaredLength; simpl; ring).
    apply vec3_ext; simpl; field.
  - rewrite (normalize_known _ 100) by (try lra; unfold vec3.squaredLength; simpl; ring).
    apply vec3_ext; simpl; field.
  - rewrite (normalize_known _ 10) by (try lra; unfold vec3.squaredLength; simpl; ring).
    apply vec3_ext; simpl; field.
Qed.

Lemma lookAt_body_along_x (e : R) (center : vec3.t) :
  vec3.x center < e -> vec3.y center = 0 -> vec3.z center = 0 ->
  mat4.lookAt_body (vec3.fromValues e 0 0) center (vec3.fromValues 0 1 0)
  = mat4.mk 0 0 1 0
            0 1 0 0
            (-1) 0 0 0
            0 0 (- e) 1.
Proof.
  intros Hx Hy Hz. unfold mat4.lookAt_body. simpl.
  rewrite Hy, Hz.
  assert (Hh : mat4.hypot3 (e - vec3.x center) (0 - 0) (0 - 0) = e - vec3.x center).
  { unfold mat4.hypot3. apply sqrt_of_square; [lra | ring]. }
  rewrite Hh.
  set (d := e - vec3.x center) in *.
  assert (Hd : d * (1 / d) = 1) by (field; unfold d; lra).
  rewrite Hd.
  replace ((0 - 0) * (1 / d)) with 0 by (field; unfold d; lra).
  rewrite (unit_or_zero_known _ _ _ 1) by (lra || ring).
  simpl.
  rewrite (unit_or_zero_known _ _ _ 1) by (lra || (field; lra)).
  simpl.
  apply mat4_ext; simpl; field.
Qed.

(** The view matrix the scene starts with, entry by entry. *)
Lemma default_view_matrix :
  getViewMatrix (new_Camera (vec3.fromValues 10 0 0) (vec3.fromValues 0 0 0)
                            (vec3.fromValues 0 1 0))
  = mat4.mk 0 0 1 0
            0 1 0 0
            (-1) 0 0 0
            0 0 (-10) 1.
Proof.
  rewrite default_camera. unfold getViewMatrix; simpl.
  rewrite lookAt_far
    by (simpl; unfold mat4.EPSILON; rewrite Rabs_right; lra).
  rewrite lookAt_body_along_x by (simpl; lra).
  reflexivity.
Qed.












(** ** Moving the camera *)


(** ** Rotating the camera *)


Lemma rotate_call_realign (op : rotation) (c : Camera) :
  rotate_call op c
  = realign (mkCamera (position c) (turned_forward op c) (up c) (right c)).
Proof.
  destruct op; reflexivity.
Qed.


Lemma hypot3_axis_x : mat4.hypot3 1 0 0 = 1.
Proof.
  unfold mat4.hypot3. apply sqrt_of_square; [lra | ring].
Qed.

Lemma hypot3_axis_z : mat4.hypot3 0 0 1 = 1.
Proof.
  unfold mat4.hypot3. apply sqrt_of_square; [lra | ring].
Qed.

(** The matrix [rotateUp] builds: a turn about the world x axis. *)
Lemma rotation_about_x (rad : R) :
  rotation_of rad (vec3.fromValues 1 0 0)
  = mat4.mk 1 0 0 0
            0 (cos rad) (sin rad) 0
            0 (- sin rad) (cos rad) 0
            0 0 0 1.
Proof.
  unfold rotation_of, mat4.rotate; simpl. rewrite hypot3_axis_x.
  destruct (Rlt_dec 1 mat4.EPSILON) as [H | _].
  - unfold mat4.EPSILON in H. lra.
  - apply mat4_ext; simpl; field.
Qed.

(** The matrix [rotateRight] builds: a turn about the world z axis. *)
Lemma rotation_about_z (rad : R) :
  rotation_of rad (vec3.fromValues 0 0 1)
  = mat4.mk (cos rad) (sin rad) 0 0
            (- sin rad) (cos rad) 0 0
            0 0 1 0
            0 0 0 1.
Proof.
  unfold rotation_of, mat4.rotate; simpl. rewrite hypot3_axis_z.
  destruct (Rlt_dec 1 mat4.EPSILON) as [H | _].
  - unfold mat4.EPSILON in H. lra.
  - apply mat4_ext; simpl; field.
Qed.

Lemma transformMat4_affine (a : vec3.t) (m : mat4.t) :
  mat4.m3 m = 0 -> mat4.m7 m = 0 -> mat4.m11 m = 0 -> mat4.m15 m = 1 ->
  mat4.transformMat4 a m
  = vec3.fromValues
      (mat4.m0 m * vec3.x a + mat4.m4 m * vec3.y a + mat4.m8 m * vec3.z a + mat4.m12 m)
      (mat4.m1 m * vec3.x a + mat4.m5 m * vec3.y a + mat4.m9 m * vec3.z a + mat4.m13 m)
      (mat4.m2 m * vec3.x a + mat4.m6 m * vec3.y a + mat4.m10 m * vec3.z a + mat4.m14 m).
Proof.
  intros H3 H7 H11 H15. unfold mat4.transformMat4. rewrite H3, H7, H11, H15.
  destruct (Req_dec_T (0 * vec3.x a + 0 * vec3.y a + 0 * vec3.z a + 1) 0) as [E | _].
  - exfalso; lra.
  - apply vec3_ext; simpl; field.
Qed.

Lemma turned_forward_up (rad : R) (c : Camera) :
  turned_forward (RotateUp rad) c
  = vec3.fromValues
      (vec3.x (forward c))
      (cos rad * vec3.y (forward c) - sin rad * vec3.z (forward c))
      (sin rad * vec3.y (forward c) + cos rad * vec3.z (forward c)).
Proof.
  unfold turned_forward. rewrite rotation_about_x.
  rewrite transformMat4_affine by reflexivity.
  apply vec3_ext; simpl; ring.
Qed.

Lemma turned_forward_right (rad : R) (c : Camera) :
  turned_forward (RotateRight rad) c
  = vec3.fromValues
      (cos rad * vec3.x (forward c) - sin rad * vec3.y (forward c))
      (sin rad * vec3.x (forward c) + cos rad * vec3.y (forward c))
      (vec3.z (forward c)).
Proof.
  unfold turned_forward. rewrite rotation_about_z.
  rewrite transformMat4_affine by reflexivity.
  apply vec3_ext; simpl; ring.
Qed.






(** ** Light attenuation in the two lighting shaders *)

Lemma reciprocal_value (x v : R) : v <> 0 -> v = 1 / x -> x * v = 1.
Proof.
  intros Hv E. destruct (Req_dec x 0) as [-> | Hx].
  - unfold Rdiv in E. rewrite Rinv_0 in E. lra.
  - subst v. field. exact Hx.
Qed.

Lemma reciprocal_zero (x : R) : 0 = 1 / x -> x = 0.
Proof.
  intros E. destruct (Req_dec x 0) as [Hx | Hx]; [exact Hx|].
  exfalso. pose proof (Rinv_neq_0_compat x Hx) as Hi.
  unfold Rdiv in E. lra.
Qed.

(** No choice of the three coefficients makes the inverse-quadratic
    falloff agree with [1 - d] at the distances 0, 1, 2 and 3. *)
Lemma falloff_differs (c l q : R) :
  exists d : R, 0 <= d /\ 1 - d <> 1 / (c + l * d + q * (d * d)).
Proof.
  destruct (Req_dec (1 - 0) (1 / (c + l * 0 + q * (0 * 0)))) as [E0 | N0];
    [| exists 0; split; [lra | exact N0]].
  destruct (Req_dec (1 - 1) (1 / (c + l * 1 + q * (1 * 1)))) as [E1 | N1];
    [| exists 1; split; [lra | exact N1]].
  destruct (Req_dec (1 - 2) (1 / (c + l * 2 + q * (2 * 2)))) as [E2 | N2];
    [| exists 2; split; [lra | exact N2]].
  exists 3. split; [lra|]. intros E3.
  apply reciprocal_value in E0; [| lra].
  replace (1 - 1) with 0 in E1 by ring. apply reciprocal_zero in E1.
  apply reciprocal_value in E2; [| lra].
  apply reciprocal_value in E3; [| lra].
  lra.
Qed.

Lemma length_along_x (a : vec3.t) (d : R) :
  0 <= d ->
  vec3.length
    (vec3.subtract a (vec3.fromValues (vec3.x a - d) (vec3.y a) (vec3.z a))) = d.
Proof.
  intros Hd. unfold vec3.length, vec3.squaredLength; simpl.
  apply sqrt_of_square; [exact Hd | ring].
Qed.

(** C9.  The lighting pass of the gbuffer example scales the shaded colour
    by 1 - length(light position - fragment position); whatever the
    constant, linear and quadratic coefficients, this is not the function
    1 / (constant + linear d + quadratic d^2) of the distance d that
    [CalcPointLight] uses. *)
Theorem gbuffer_attenuation_not_inverse_square :
  (forall uLight_position uLight_color uEyePosition position normalTexel baseColor,
      GLSL.rgb (Gbuffer.main uLight_position uLight_color uEyePosition
                             position normalTexel baseColor)
      = GLSL.mul
          (vec3.scale
             (Gbuffer.shade uLight_position uLight_color uEyePosition
                            position normalTexel)
             (1 - vec3.length (vec3.subtract uLight_position position)))
          (GLSL.rgb baseColor))
  /\ (forall light : PhongShader.PointLight,
         exists fragPos : vec3.t,
           Gbuffer.attenuation (PhongShader.position light) fragPos
           <> PhongShader.attenuation light fragPos)
  /\ (forall constant linear quadratic : R,
         ~ (forall d : R, 0 <= d ->
              1 - d = 1 / (constant + linear * d + quadratic * (d * d)))).
Proof.
  split; [reflexivity|]. split.
  - intros light.
    destruct (falloff_differs (PhongShader.constant light)
                (PhongShader.linear light) (PhongShader.quadratic light))
      as (d & Hd & Hne).
    set (p := PhongShader.position light).
    exists (vec3.fromValues (vec3.x p - d) (vec3.y p) (vec3.z p)).
    unfold Gbuffer.attenuation, PhongShader.attenuation. fold p.
    rewrite (length_along_x p d Hd). exact Hne.
  - intros c l q H.
    destruct (falloff_differs c l q) as (d & Hd & Hne).
    apply Hne, H, Hd.
Qed.


(** ** Running the effectful code step by step *)

Lemma run_bind_ret {S A B : Type} (a : A) (k : A -> js S B) (s : S) :
  bind (ret a) k s = k a s.
Proof. reflexivity. Qed.

Lemma run_bind_throw {S A B : Type} (e : exn) (k : A -> js S B) (s : S) :
  bind (throw e) k s = (Throw e, s).
Proof. reflexivity. Qed.

Lemma run_bind_bind {S A B C : Type} (c : js S A) (f : A -> js S B)
    (g : B -> js S C) (s : S) :
  bind (bind c f) g s = bind c (fun a => bind (f a) g) s.
Proof.
  unfold bind. destruct (c s) as [[a | e] s']; reflexivity.
Qed.

Lemma run_bind_emit {O B : Type} (e : event) (k : unit -> js (state O) B)
    (s : state O) :
  bind (emit e) k s
  = k tt (mkState (this s) (next_handle s) (events s ++ [e])).
Proof. reflexivity. Qed.

Lemma run_bind_gl {O B : Type} (c : glcall) (k : unit -> js (state O) B)
    (s : state O) :
  bind (gl c) k s
  = k tt (mkState (this s) (next_handle s) (events s ++ [GL c])).
Proof. reflexivity. Qed.

Lemma run_bind_console_error {O B : Type} (w : logged)
    (k : unit -> js (state O) B) (s : state O) :
  bind (console_error w) k s
  = k tt (mkState (this s) (next_handle s) (events s ++ [ConsoleError w])).
Proof. reflexivity. Qed.

Lemma run_bind_fresh {O B : Type} (k : handle -> js (state O) B) (s : state O) :
  bind fresh k s
  = k (S (next_handle s)) (mkState (this s) (S (next_handle s)) (events s)).
Proof. reflexivity. Qed.

Lemma run_bind_get_this {O B : Type} (k : O -> js (state O) B) (s : state O) :
  bind get_this k s = k (this s) s.
Proof. reflexivity. Qed.

Lemma run_bind_update {O B : Type} (f : O -> O) (k : unit -> js (state O) B)
    (s : state O) :
  bind (update f) k s = k tt (mkState (f (this s)) (next_handle s) (events s)).
Proof. reflexivity. Qed.

Lemma run_emit {O : Type} (e : event) (s : state O) :
  emit e s = (Normal tt, mkState (this s) (next_handle s) (events s ++ [e])).
Proof. reflexivity. Qed.

Lemma run_console_error {O : Type} (w : logged) (s : state O) :
  console_error w s
  = (Normal tt, mkState (this s) (next_handle s) (events s ++ [ConsoleError w])).
Proof. reflexivity. Qed.

Lemma run_update {O : Type} (f : O -> O) (s : state O) :
  update f s = (Normal tt, mkState (f (this s)) (next_handle s) (events s)).
Proof. reflexivity. Qed.

Lemma run_ret {S A : Type} (a : A) (s : S) : ret a s = (Normal a, s).
Proof. reflexivity. Qed.

Lemma run_throw {S A : Type} (e : exn) (s : S) : @throw S A e s = (Throw e, s).
Proof. reflexivity. Qed.

(** one step of a run, then the projections of the explicit state *)
Ltac js_step :=
  first
    [ rewrite run_bind_bind
    | rewrite run_bind_ret
    | rewrite run_bind_throw
    | rewrite run_bind_gl
    | rewrite run_bind_console_error
    | rewrite run_bind_emit
    | rewrite run_bind_fresh
    | rewrite run_bind_get_this
    | rewrite run_bind_update
    | rewrite run_console_error
    | rewrite run_emit
    | rewrite run_update
    | rewrite run_ret
    | rewrite run_throw
    | progress cbn [this next_handle events negb] ];
  cbn [this next_handle events negb].

Ltac js_run := repeat js_step.

(** ** The Phong renderer's constructor *)

(** C10.  On a context where both shaders compile and the program links
    and validates, [new renderer(gl)] ends in a TypeError at
    [me.uniforms.pointLights = []], whatever the global [scene] is: the
    object has its program and neither [uniforms] nor [attribs]. *)
Theorem renderer_constructor_throws
    (context : driver) (scene : Phong.global_scene) (next : handle) :
  COMPILE_STATUS context VERTEX_SHADER Phong.vertexShaderText = true ->
  COMPILE_STATUS context FRAGMENT_SHADER Phong.fragmentShaderText = true ->
  LINK_STATUS context Phong.vertexShaderText Phong.fragmentShaderText = true ->
  VALIDATE_STATUS context Phong.vertexShaderText Phong.fragmentShaderText = true ->
  exists s : state Phong.renderer_object,
    Phong.new_renderer context scene next = (Throw (TypeError "me.uniforms"), s)
    /\ Phong.program (this s) = Obj (S (S (S next)))
    /\ Phong.uniforms (this s) = Undefined
    /\ Phong.attribs (this s) = Undefined.
Proof.
  intros Hvs Hfs Hlink Hvalid.
  unfold Phong.new_renderer, Phong.renderer.
  js_run. rewrite Hvs. js_run. rewrite Hfs. js_run.
  rewrite Hlink. js_run. rewrite Hvalid. js_run.
  unfold Phong.assign_uniform. js_run.
  cbn [Phong.uniforms Phong.set_program Phong.blank deref]. js_run.
  eexists. split; [reflexivity|].
  cbn [this Phong.program Phong.uniforms Phong.attribs Phong.set_program
       Phong.blank].
  auto.
Qed.

Lemma renderer_constructor_throws_witness :
  COMPILE_STATUS healthy_context VERTEX_SHADER Phong.vertexShaderText = true
  /\ COMPILE_STATUS healthy_context FRAGMENT_SHADER Phong.fragmentShaderText = true
  /\ LINK_STATUS healthy_context Phong.vertexShaderText Phong.fragmentShaderText = true
  /\ VALIDATE_STATUS healthy_context Phong.vertexShaderText Phong.fragmentShaderText = true
  /\ exists s : state Phong.renderer_object,
       Phong.new_renderer healthy_context (Some (Obj (Obj 2%nat))) 0%nat
       = (Throw (TypeError "me.uniforms"), s)
       /\ Phong.program (this s) = Obj 3%nat
       /\ Phong.uniforms (this s) = Undefined
       /\ Phong.attribs (this s) = Undefined.
Proof.
  repeat (split; [reflexivity|]).
  apply (renderer_constructor_throws healthy_context (Some (Obj (Obj 2%nat))) 0%nat);
    reflexivity.
Defined.

Ltac events_flat := rewrite <- ?app_assoc; cbn [app].

Lemma run_bind_when {O B : Type} (b : bool) (f : O -> O)
    (k : unit -> js (state O) B) (s : state O) :
  bind (if b then update f else ret tt) k s
  = k tt (mkState (if b then f (this s) else this s) (next_handle s) (events s)).
Proof.
  destruct b; [reflexivity|]. destruct s; reflexivity.
Qed.

(** ** Tearing the scene down *)

Lemma Pause_run (s : state Tree.Scene) :
  exists evs, Tree.Pause s = (Normal tt, mkState (this s) (next_handle s) evs).
Proof.
  unfold Tree.Pause. js_run.
  destruct (Tree.nextFrameHandle (this s)) as [| | [| h]]; js_run;
    destruct s; eexists; reflexivity.
Qed.

(** [Unload] never writes [this.textures]: when its second block is
    reached, [this.models] is [null] or was never set. *)
Lemma Unload_textures_untouched (cb : callback) (s : state Tree.Scene) :
  Tree.textures (this (snd (Tree.Unload cb s))) = Tree.textures (this s).
Proof.
  unfold Tree.Unload.
  destruct (Pause_run s) as [evs HP].
  unfold bind at 1. rewrite HP.
  js_run. rewrite run_bind_when. js_run.
  destruct s as [[ms ts p c vm pm nf] n ev].
  cbn [this Tree.models truthy].
  destruct ms; cbn [truthy Tree.models Tree.set_models]; js_run;
    repeat (rewrite run_bind_when; js_run);
    destruct cb; unfold invoke; js_run; cbn [snd this];
    repeat match goal with
           | |- context [if ?b then _ else _] => destruct b
           end; reflexivity.
Qed.

(** Called without a callback, [Unload] does all of the above and then
    ends in a TypeError at [callback()]. *)
Lemma Unload_without_callback (s : state Tree.Scene) :
  fst (Tree.Unload NotAFunction s)
  = Throw (TypeError "callback is not a function").
Proof.
  unfold Tree.Unload.
  destruct (Pause_run s) as [evs HP].
  unfold bind at 1. rewrite HP.
  js_run. rewrite run_bind_when. js_run.
  destruct s as [[ms ts p c vm pm nf] n ev].
  cbn [this Tree.models truthy].
  destruct ms; cbn [truthy Tree.models Tree.set_models]; js_run;
    repeat (rewrite run_bind_when; js_run);
    unfold invoke; js_run; reflexivity.
Qed.

(** C4.  The claim asks that two [Unload] calls in a row do not throw and
    leave the models and the textures map empty.  On the loaded scene
    holding the model "tree", both calls complete without a throw and the
    models map is gone, but the textures map still holds the texture of
    "tree" after the first call and after the second. *)
Theorem Unload_twice_keeps_textures :
  let first := Tree.Unload Function tree_scene in
  let second := Tree.Unload Function (snd first) in
  fst first = Normal tt
  /\ fst second = Normal tt
  /\ Tree.models (this (snd first)) = Null
  /\ Tree.models (this (snd second)) = Null
  /\ Tree.textures (this tree_scene) = Obj [("tree"%string, 8%nat)]
  /\ Tree.textures (this (snd first)) = Obj [("tree"%string, 8%nat)]
  /\ Tree.textures (this (snd second)) = Obj [("tree"%string, 8%nat)].
Proof.
  repeat split; reflexivity.
Qed.

(** ** A shader build that fails *)

(** What a [Load] whose build fails does: it resets the two maps, makes
    build calls only, logs one text and returns. *)
Lemma Load_failure_run (context : driver) (cb : callback) (s : state Tree.Scene) :
  Tree.build_ok context = false ->
  exists (n : handle) (calls : list glcall) (msg : string),
    Tree.Load context cb s
    = (Normal tt,
       mkState (Tree.set_textures (Obj JSObject.empty)
                  (Tree.set_models (Obj JSObject.empty) (this s)))
               n
               (events s ++ map GL calls ++ [ConsoleError (LogText msg)]))
    /\ Tree.draw_counts (map GL calls) = [].
Proof.
  intros Hfail. unfold Tree.build_ok in Hfail. unfold Tree.Load.
  js_run.
  destruct (COMPILE_STATUS context VERTEX_SHADER Tree.vertexShaderText).
  2:{ js_run. events_flat.
      eexists _, [_; _; _], _. split; reflexivity. }
  js_run.
  destruct (COMPILE_STATUS context FRAGMENT_SHADER Tree.fragmentShaderText).
  2:{ js_run. events_flat.
      eexists _, [_; _; _; _; _; _], _. split; reflexivity. }
  js_run.
  destruct (LINK_STATUS context Tree.vertexShaderText Tree.fragmentShaderText).
  2:{ js_run. events_flat.
      eexists _, [_; _; _; _; _; _; _; _; _; _], _. split; reflexivity. }
  js_run.
  destruct (VALIDATE_STATUS context Tree.vertexShaderText Tree.fragmentShaderText).
  1:{ discriminate Hfail. }
  js_run. events_flat.
  eexists _, [_; _; _; _; _; _; _; _; _; _; _], _. split; reflexivity.
Qed.

(** C7, as stated, fails: on a new scene a [Load] whose vertex shader does
    not compile leaves the scene with a models map, which it did not have. *)
Lemma Load_failure_not_atomic :
  ~ (forall (context : driver) (cb : callback) (s : state Tree.Scene),
        Tree.build_ok context = false ->
        this (snd (Tree.Load context cb s)) = this s).
Proof.
  intros H.
  specialize (H no_vertex_context Function (mkState Tree.new_Scene 0%nat [])
                (eq_refl _)).
  apply (f_equal Tree.models) in H.
  discriminate H.
Qed.

(** C7 (amended).  A [Load] whose shader build fails returns without a
    throw, having logged the failure and without invoking its callback; it
    sets no program, camera, view or projection matrix and no frame handle
    (these are as before the call), and it resets the models and the
    textures map to empty maps. *)
Theorem Load_failure_sets_only_maps
    (context : driver) (cb : callback) (s : state Tree.Scene) :
  Tree.build_ok context = false ->
  let r := Tree.Load context cb s in
  fst r = Normal tt
  /\ Tree.models (this (snd r)) = Obj JSObject.empty
  /\ Tree.textures (this (snd r)) = Obj JSObject.empty
  /\ Tree.program (this (snd r)) = Tree.program (this s)
  /\ Tree.camera (this (snd r)) = Tree.camera (this s)
  /\ Tree.viewMatrix (this (snd r)) = Tree.viewMatrix (this s)
  /\ Tree.projMatrix (this (snd r)) = Tree.projMatrix (this s)
  /\ Tree.nextFrameHandle (this (snd r)) = Tree.nextFrameHandle (this s)
  /\ exists (calls : list glcall) (msg : string),
       events (snd r)
       = events s ++ map GL calls ++ [ConsoleError (LogText msg)].
Proof.
  intros Hfail r. subst r.
  destruct (Load_failure_run context cb s Hfail) as (n & calls & msg & Hrun & _).
  rewrite Hrun. cbn [fst snd this events].
  repeat split. exists calls, msg. reflexivity.
Qed.

Lemma Load_failure_sets_only_maps_witness :
  Tree.build_ok no_vertex_context = false
  /\ let r := Tree.Load no_vertex_context Function
                (mkState Tree.new_Scene 0%nat []) in
     fst r = Normal tt
     /\ Tree.models (this (snd r)) = Obj JSObject.empty
     /\ Tree.textures (this (snd r)) = Obj JSObject.empty
     /\ Tree.program (this (snd r)) = Undefined
     /\ Tree.camera (this (snd r)) = Undefined
     /\ Tree.viewMatrix (this (snd r)) = Undefined
     /\ Tree.projMatrix (this (snd r)) = Undefined
     /\ Tree.nextFrameHandle (this (snd r)) = Undefined
     /\ exists (calls : list glcall) (msg : string),
          events (snd r) = [] ++ map GL calls ++ [ConsoleError (LogText msg)].
Proof.
  split; [reflexivity|].
  apply (Load_failure_sets_only_maps no_vertex_context Function
           (mkState Tree.new_Scene 0%nat [])).
  reflexivity.
Defined.


(** [Render] on a scene without a program stops at [me.program.uniforms]
    with a TypeError, before any draw call. *)
Lemma Render_without_program (context : driver) (s : state Tree.Scene) :
  truthy (Tree.program (this s)) = false ->
  exists calls : list glcall,
    Tree.Render context s
    = (Throw (TypeError "me.program"),
       mkState (this s) (next_handle s) (events s ++ map GL calls))
    /\ Tree.draw_counts (map GL calls) = [].
Proof.
  intros Hp. unfold Tree.Render. js_run.
  destruct (Tree.program (this s)); try discriminate Hp;
    cbn [deref]; js_run; events_flat;
    eexists [_; _; _; _; _; _; _; _]; split; reflexivity.
Qed.



(** A [Material] whose program does not link is, for its caller, the same
    object as one whose program links: the same completion, the same
    [program] field. *)
Lemma Material_link_failure_unseen (vs fs : string) (next : handle) :
  fst (Materials.new_Material no_link_context vs fs next)
  = fst (Materials.new_Material healthy_context vs fs next)
  /\ this (snd (Materials.new_Material no_link_context vs fs next))
     = this (snd (Materials.new_Material healthy_context vs fs next)).
Proof.
  split; reflexivity.
Qed.



(** ** A model file that does not parse *)



(** A model file that parses but lacks one of the four arrays: the image
    handler ends in a TypeError before it touches the scene. *)
Lemma incomplete_payload_leaves_scene
    (id imgURL : string) (cb : callback) (s : state Tree.Scene) :
  Tree.image_onload id imgURL Tree.Incomplete cb s
  = (Throw (TypeError "modelJSON.data.attributes.position.array"), s).
Proof.
  reflexivity.
Qed.

(** ** Objects as maps: enumeration order *)

Lemma get_of_entry {V : Type} (o : JSObject.t V) (k : string) (v : V) :
  NoDup (JSObject.keys o) -> In (k, v) o -> JSObject.get k o = Obj v.
Proof.
  induction o as [| [k' w] rest IH]; intros Hnd Hin; [contradiction|].
  cbn [JSObject.keys map fst] in Hnd. inversion Hnd as [| ? ? Hnotin Hrest]; subst.
  cbn [JSObject.get]. destruct Hin as [E | Hin].
  - inversion E; subst. rewrite String.eqb_refl. reflexivity.
  - destruct (String.eqb_spec k k') as [-> | Hne].
    + exfalso. apply Hnotin. change k' with (fst (k', v)).
      apply in_map. exact Hin.
    + apply IH; assumption.
Qed.



Lemma keys_replace {V : Type} (o : JSObject.t V) (k : string) (v : V) :
  JSObject.keys (JSObject.replace k v o) = JSObject.keys o.
Proof.
  induction o as [| [k' w] rest IH]; [reflexivity|].
  cbn [JSObject.replace]. destruct (String.eqb k k'); cbn [JSObject.keys map fst].
  - reflexivity.
  - f_equal. exact IH.
Qed.

Lemma keys_create {V : Type} (o : JSObject.t V) (k : string) (v : V) :
  Add k (JSObject.keys o) (JSObject.keys (JSObject.create k v o)).
Proof.
  induction o as [| [k' w] rest IH]; cbn [JSObject.create].
  - constructor.
  - destruct (JSObject.precedes k k'); cbn [JSObject.keys map fst].
    + constructor.
    + constructor. exact IH.
Qed.

(** An object never lists a key twice. *)
Lemma set_keeps_keys_distinct {V : Type} (o : JSObject.t V) (k : string) (v : V) :
  NoDup (JSObject.keys o) -> NoDup (JSObject.keys (JSObject.set k v o)).
Proof.
  intros Hnd. unfold JSObject.set.
  destruct (JSObject.has k o) eqn:Hhas.
  - rewrite keys_replace. exact Hnd.
  - apply (NoDup_Add (keys_create o k v)). split; [exact Hnd|].
    intros Hin. induction o as [| [k' w] rest IH]; [contradiction|].
    cbn [JSObject.has existsb fst] in Hhas.
    destruct (String.eqb_spec k k') as [-> | Hne]; [discriminate|].
    cbn [JSObject.keys map fst] in Hin, Hnd.
    destruct Hin as [E | Hin]; [congruence|].
    inversion Hnd; subst. apply IH; assumption.
Qed.

Lemma registered_keys_distinct {V : Type} (regs : list (string * V)) :
  NoDup (JSObject.keys (Tree.registered regs)).
Proof.
  unfold Tree.registered.
  assert (H : forall o : JSObject.t V,
             NoDup (JSObject.keys o) ->
             NoDup (JSObject.keys
                      (fold_left (fun o kv => JSObject.set (fst kv) (snd kv) o)
                                 regs o))).
  { induction regs as [| kv regs IH]; intros o Ho; [exact Ho|].
    cbn [fold_left]. apply IH. apply set_keeps_keys_distinct. exact Ho. }
  apply H. constructor.
Qed.









(** ** Rendering *)

Section Rendering.

Variable context : driver.
Variable me : Tree.Scene.
Variable p : Tree.Program.
Variables proj view : mat4.t.
Variable textures_ : JSObject.t handle.
Variable models_ : JSObject.t Tree.Model.

Hypothesis Hprogram : Tree.program me = Obj p.
Hypothesis Hproj : Tree.projMatrix me = Obj proj.
Hypothesis Hview : Tree.viewMatrix me = Obj view.
Hypothesis Htextures : Tree.textures me = Obj textures_.
Hypothesis Hmodels : Tree.models me = Obj models_.

(** one turn of the loop *)
Lemma draw_model_run (i : string) (m : Tree.Model) (n : handle)
    (evs : list event) :
  JSObject.get i models_ = Obj m ->
  Tree.draw_model i (mkState me n evs)
  = (Normal tt,
     mkState me n (evs ++ map GL (Tree.mesh_calls p textures_ (i, m)))).
Proof.
  intros Hget. unfold Tree.draw_model. js_run.
  rewrite Htextures. cbn [deref]. js_run.
  rewrite Hprogram. cbn [deref]. js_run.
  rewrite Hmodels. cbn [deref]. js_run.
  rewrite Hget. cbn [deref]. js_run.
  unfold gl. js_run. events_flat. reflexivity.
Qed.

(** the loop over any stretch of the entries *)
Lemma draw_models_run (entries : list (string * Tree.Model)) :
  (forall i m, In (i, m) entries -> JSObject.get i models_ = Obj m) ->
  forall (n : handle) (evs : list event),
    for_each (map fst entries) Tree.draw_model (mkState me n evs)
    = (Normal tt,
       mkState me n
         (evs ++ map GL (flat_map (Tree.mesh_calls p textures_) entries))).
Proof.
  induction entries as [| [i m] rest IH]; intros Hget n evs.
  - cbn [map flat_map for_each]. rewrite app_nil_r. reflexivity.
  - cbn [map fst for_each flat_map].
    unfold bind. rewrite (draw_model_run i m n evs) by (apply Hget; left; reflexivity).
    rewrite IH by (intros i' m' Hin; apply Hget; right; exact Hin).
    rewrite map_app, app_assoc. reflexivity.
Qed.

Lemma Render_run (n : handle) (evs : list event) :
  NoDup (JSObject.keys models_) ->
  Tree.Render context (mkState me n evs)
  = (Normal tt,
     mkState me n
       (evs ++ map GL (Tree.setup_calls context p proj view
                       ++ flat_map (Tree.mesh_calls p textures_) models_))).
Proof.
  intros Hnd. unfold Tree.Render. js_run.
  rewrite Hprogram. cbn [deref]. js_run.
  rewrite Hproj. cbn [deref]. js_run.
  rewrite Hview. cbn [deref]. js_run.
  rewrite Hmodels. cbn [Tree.for_in_keys]. unfold JSObject.keys.
  rewrite draw_models_run by (intros i m Hin; apply get_of_entry; assumption).
  events_flat. rewrite map_app. cbn [map Tree.setup_calls app].
  reflexivity.
Qed.

End Rendering.






(** * Further properties of the code *)

(** ** More on the camera *)













(** a vector of length one is its own direction *)
Lemma normalize_of_unit (v : vec3.t) :
  vec3.squaredLength v = 1 -> vec3.normalize v = v.
Proof.
  intros H.
  assert (Hp : 0 < vec3.squaredLength v) by lra.
  rewrite (normalize_pos v Hp), H, sqrt_1.
  apply vec3_ext; simpl; field.
Qed.

Lemma length_one_squared (v : vec3.t) :
  vec3.length v = 1 -> vec3.squaredLength v = 1.
Proof.
  unfold vec3.length. intros H.
  pose proof (squaredLength_nonneg v) as Hn.
  rewrite <- (sqrt_sqrt _ Hn), H. ring.
Qed.

(** a turn keeps the length of forward *)
Lemma turned_forward_length (op : rotation) (c : Camera) :
  vec3.squaredLength (turned_forward op c) = vec3.squaredLength (forward c).
Proof.
  destruct op as [rad | rad];
    [rewrite turned_forward_up | rewrite turned_forward_right];
    unfold vec3.squaredLength; simpl;
    pose proof (sin2_cos2 rad) as Hsc; unfold Rsqr in Hsc;
    set (s := sin rad) in *; set (co := cos rad) in *;
    set (x := vec3.x (forward c)); set (y := vec3.y (forward c));
    set (z := vec3.z (forward c)).
  - replace (x * x + (co * y - s * z) * (co * y - s * z)
             + (s * y + co * z) * (s * y + co * z))
      with (x * x + (s * s + co * co) * (y * y + z * z)) by ring.
    rewrite Hsc. ring.
  - replace ((co * x - s * y) * (co * x - s * y)
             + (s * x + co * y) * (s * x + co * y) + z * z)
      with ((s * s + co * co) * (x * x + y * y) + z * z) by ring.
    rewrite Hsc. ring.
Qed.

(** X3.  On a camera whose forward vector has length one, [rotateUp(rad)]
    turns forward about the world x axis and [rotateRight(rad)] about the
    world z axis, by exactly [rad]; the position is not touched and forward
    keeps its length. *)
Theorem rotate_turns_forward (rad : R) (c : Camera) :
  vec3.length (forward c) = 1 ->
  forward (rotateUp rad c)
  = vec3.fromValues
      (vec3.x (forward c))
      (cos rad * vec3.y (forward c) - sin rad * vec3.z (forward c))
      (sin rad * vec3.y (forward c) + cos rad * vec3.z (forward c))
  /\ forward (rotateRight rad c)
     = vec3.fromValues
         (cos rad * vec3.x (forward c) - sin rad * vec3.y (forward c))
         (sin rad * vec3.x (forward c) + cos rad * vec3.y (forward c))
         (vec3.z (forward c))
  /\ position (rotateUp rad c) = position c
  /\ position (rotateRight rad c) = position c
  /\ vec3.length (forward (rotateUp rad c)) = 1
  /\ vec3.length (forward (rotateRight rad c)) = 1.
Proof.
  intros Hlen. apply length_one_squared in Hlen.
  assert (Hup : forward (rotateUp rad c) = turned_forward (RotateUp rad) c).
  { change (rotateUp rad c) with (rotate_call (RotateUp rad) c).
    rewrite rotate_call_realign. cbn [realign forward].
    apply normalize_of_unit. rewrite turned_forward_length. exact Hlen. }
  assert (Hright : forward (rotateRight rad c) = turned_forward (RotateRight rad) c).
  { change (rotateRight rad c) with (rotate_call (RotateRight rad) c).
    rewrite rotate_call_realign. cbn [realign forward].
    apply normalize_of_unit. rewrite turned_forward_length. exact Hlen. }
  split; [rewrite Hup; apply turned_forward_up|].
  split; [rewrite Hright; apply turned_forward_right|].
  split; [reflexivity|]. split; [reflexivity|].
  split; apply length_one.
  - rewrite Hup, turned_forward_length. exact Hlen.
  - rewrite Hright, turned_forward_length. exact Hlen.
Qed.

Lemma rotate_turns_forward_witness :
  vec3.length (forward (mkCamera (vec3.fromValues 0 0 0) (vec3.fromValues 0 0 (-1))
                                 (vec3.fromValues 0 1 0) (vec3.fromValues 1 0 0))) = 1
  /\ position (rotateUp PI
                 (mkCamera (vec3.fromValues 0 0 0) (vec3.fromValues 0 0 (-1))
                           (vec3.fromValues 0 1 0) (vec3.fromValues 1 0 0)))
     = vec3.fromValues 0 0 0.
Proof.
  assert (H : vec3.length
                (forward (mkCamera (vec3.fromValues 0 0 0) (vec3.fromValues 0 0 (-1))
                                   (vec3.fromValues 0 1 0) (vec3.fromValues 1 0 0))) = 1).
  { apply length_one. unfold vec3.squaredLength; simpl; ring. }
  split; [exact H|].
  apply (rotate_turns_forward PI _ H).
Defined.





(** ** More on loading the scene *)

(** X6.  On a context where the whole build succeeds, [Load] makes its
    eleven build calls, logs nothing, sets the program with its locations,
    the default camera, the view matrix of that camera and the projection
    matrix, leaves both maps empty and the frame handle alone, and invokes
    the callback once, as the last thing it does. *)
Theorem Load_success (context : driver) (s : state Tree.Scene) :
  Tree.build_ok context = true ->
  let vs := S (next_handle s) in
  let fs := S vs in
  let prog := S fs in
  let cam := new_Camera (vec3.fromValues 10 0 0) (vec3.fromValues 0 0 0)
                        (vec3.fromValues 0 1 0) in
  Tree.Load context Function s
  = (Normal tt,
     mkState
       (Tree.mkScene
          (Obj JSObject.empty) (Obj JSObject.empty)
          (Obj (Tree.mkProgram prog
                  (getUniformLocation context "mProj")
                  (getUniformLocation context "mView")
                  (getUniformLocation context "mWorld")
                  (getUniformLocation context "ambientLightIntensity")
                  (getUniformLocation context "sun.direction")
                  (getUniformLocation context "sun.color")
                  (getAttribLocation context "vertPosition")
                  (getAttribLocation context "vertNormal")
                  (getAttribLocation context "vertTexCoord")))
          (Obj cam)
          (Obj (mat4.mk 0 0 1 0  0 1 0 0  (-1) 0 0 0  0 0 (-10) 1))
          (Obj (mat4.perspective (toRadian 45)
                  (clientWidth context / clientHeight context) (1 / 10) 100))
          (Tree.nextFrameHandle (this s)))
       prog
       (events s
        ++ map GL [ createShader VERTEX_SHADER vs;
                    shaderSource vs Tree.vertexShaderText;
                    compileShader vs;
                    createShader FRAGMENT_SHADER fs;
                    shaderSource fs Tree.fragmentShaderText;
                    compileShader fs;
                    createProgram prog;
                    attachShader prog vs;
                    attachShader prog fs;
                    linkProgram prog;
                    validateProgram prog ]
        ++ [CallbackInvoked])).
Proof.
  intros Hok vs fs prog cam.
  unfold Tree.build_ok in Hok.
  apply andb_prop in Hok. destruct Hok as [Hok Hvalid].
  apply andb_prop in Hok. destruct Hok as [Hok Hlink].
  apply andb_prop in Hok. destruct Hok as [Hvs Hfs].
  unfold Tree.Load. js_run.
  rewrite Hvs. js_run. rewrite Hfs. js_run.
  rewrite Hlink. js_run. rewrite Hvalid. js_run.
  unfold invoke. js_run. events_flat.
  rewrite default_view_matrix.
  destruct s as [[ms ts p c vm pm nf] n evs]. reflexivity.
Qed.

Lemma Load_success_witness :
  Tree.build_ok healthy_context = true
  /\ Tree.program (this loaded_scene)
     = Obj (Tree.mkProgram 3 (Obj 1%nat) (Obj 1%nat) (Obj 1%nat) (Obj 1%nat)
                           (Obj 1%nat) (Obj 1%nat) 0%Z 0%Z 0%Z).
Proof.
  split; [reflexivity|].
  unfold loaded_scene.
  rewrite (Load_success healthy_context (mkState Tree.new_Scene 0%nat []) eq_refl).
  reflexivity.
Defined.

(** X7.  Every [Load], whether its build succeeds or fails, starts the
    scene over with two empty maps: models and textures registered before
    are gone.  It never writes the frame handle, so a loop that is running
    keeps running. *)
Theorem Load_resets_maps (context : driver) (cb : callback)
    (s : state Tree.Scene) :
  Tree.models (this (snd (Tree.Load context cb s))) = Obj JSObject.empty
  /\ Tree.textures (this (snd (Tree.Load context cb s))) = Obj JSObject.empty
  /\ Tree.nextFrameHandle (this (snd (Tree.Load context cb s)))
     = Tree.nextFrameHandle (this s).
Proof.
  destruct (Tree.build_ok context) eqn:Hok.
  - unfold Tree.build_ok in Hok.
    apply andb_prop in Hok. destruct Hok as [Hok Hvalid].
    apply andb_prop in Hok. destruct Hok as [Hok Hlink].
    apply andb_prop in Hok. destruct Hok as [Hvs Hfs].
    unfold Tree.Load. js_run.
    rewrite Hvs. js_run. rewrite Hfs. js_run.
    rewrite Hlink. js_run. rewrite Hvalid. js_run.
    destruct s as [[ms ts p c vm pm nf] n evs].
    destruct cb; unfold invoke; js_run; repeat split.
  - destruct (Load_failure_run context cb s Hok) as (n & calls & msg & Hrun & _).
    rewrite Hrun. destruct s as [[ms ts p c vm pm nf] n0 evs].
    repeat split.
Qed.

(** ** More on rendering and the frame loop *)

(** one turn of the loop of [Render], on any scene: only events are added *)
Lemma draw_model_only_events (i : string) (s : state Tree.Scene) :
  exists (c : completion unit) (new : list event),
    Tree.draw_model i s
    = (c, mkState (this s) (next_handle s) (events s ++ new)).
Proof.
  unfold Tree.draw_model. js_run.
  destruct (Tree.textures (this s)) as [| | ts]; cbn [deref]; js_run;
    try (eexists _, []; rewrite app_nil_r; destruct s; reflexivity).
  destruct (Tree.program (this s)) as [| | p]; cbn [deref]; js_run;
    try (events_flat; eexists _, _; reflexivity).
  destruct (Tree.models (this s)) as [| | ms]; cbn [deref]; js_run;
    try (events_flat; eexists _, _; reflexivity).
  destruct (JSObject.get i ms) as [| | m]; cbn [deref]; js_run;
    try (events_flat; eexists _, _; reflexivity).
  unfold gl. js_run. events_flat. eexists _, _. reflexivity.
Qed.

Lemma for_each_only_events (body : string -> js (state Tree.Scene) unit) :
  (forall i s, exists c new,
      body i s = (c, mkState (this s) (next_handle s) (events s ++ new))) ->
  forall (keys : list string) (s : state Tree.Scene),
  exists (c : completion unit) (new : list event),
    for_each keys body s
    = (c, mkState (this s) (next_handle s) (events s ++ new)).
Proof.
  intros Hbody keys. induction keys as [| i rest IH]; intros s.
  - exists (Normal tt), []. rewrite app_nil_r. destruct s. reflexivity.
  - cbn [for_each]. unfold bind.
    destruct (Hbody i s) as (c & new & Hrun). rewrite Hrun.
    destruct c as [[] | e].
    + destruct (IH (mkState (this s) (next_handle s) (events s ++ new)))
        as (c' & new' & Hrest).
      rewrite Hrest. cbn [this next_handle events].
      exists c', (new ++ new'). rewrite app_assoc. reflexivity.
    + exists (Throw e), new. reflexivity.
Qed.

(** X8.  [Render] only talks to the graphics context: on every scene,
    complete or not, and whether it returns or throws, the scene's fields
    and the handle counter are afterwards what they were, and the events
    of before are still there, followed by the new ones. *)
Theorem Render_only_draws (context : driver) (s : state Tree.Scene) :
  exists (c : completion unit) (new : list event),
    Tree.Render context s
    = (c, mkState (this s) (next_handle s) (events s ++ new)).
Proof.
  unfold Tree.Render. js_run.
  destruct (Tree.program (this s)) as [| | p]; cbn [deref]; js_run;
    try (events_flat; eexists _, _; reflexivity).
  destruct (Tree.projMatrix (this s)) as [| | proj]; cbn [deref]; js_run;
    try (events_flat; eexists _, _; reflexivity).
  destruct (Tree.viewMatrix (this s)) as [| | view]; cbn [deref]; js_run;
    try (events_flat; eexists _, _; reflexivity).
  match goal with
  | |- context [for_each ?keys Tree.draw_model ?st] =>
      destruct (for_each_only_events Tree.draw_model draw_model_only_events keys st)
        as (c & new & Hrun)
  end.
  rewrite Hrun. cbn [this next_handle events]. events_flat.
  eexists _, _. reflexivity.
Qed.

Lemma Pause_cancels (s : state Tree.Scene) :
  Tree.Pause s
  = (Normal tt,
     mkState (this s) (next_handle s) (events s ++ cancelled (this s))).
Proof.
  unfold Tree.Pause, cancelled. js_run.
  destruct (Tree.nextFrameHandle (this s)) as [| | [| h]]; js_run;
    try reflexivity; rewrite app_nil_r; destruct s; reflexivity.
Qed.

(** the run of [Unload] up to its call of the callback *)
Lemma Unload_run (cb : callback) (s : state Tree.Scene) :
  Tree.Unload cb s
  = invoke cb (mkState (torn_down (this s)) (next_handle s)
                       (events s ++ cancelled (this s))).
Proof.
  unfold Tree.Unload.
  unfold bind at 1. rewrite Pause_cancels.
  js_run. rewrite run_bind_when. js_run.
  destruct s as [[ms ts p c vm pm nf] n ev].
  cbn [this next_handle events Tree.models truthy].
  destruct ms; cbn [truthy Tree.models Tree.set_models]; js_run;
    repeat (rewrite run_bind_when; js_run);
    destruct c, p, pm, vm; destruct nf as [| | [| h]]; reflexivity.
Qed.

(** X9.  A teardown in full: [Unload] cancels the scheduled frame if there
    is one, nulls the models map, the program, the camera, both matrices
    and the frame handle where they were set, leaves the textures, and
    calls the callback last.  What it leaves is a fixed point: a second
    [Unload] changes no field and cancels no frame. *)
Theorem Unload_tears_down (s : state Tree.Scene) :
  Tree.Unload Function s
  = (Normal tt,
     mkState (torn_down (this s)) (next_handle s)
             (events s ++ cancelled (this s) ++ [CallbackInvoked]))
  /\ truthy (Tree.models (torn_down (this s))) = false
  /\ truthy (Tree.program (torn_down (this s))) = false
  /\ truthy (Tree.camera (torn_down (this s))) = false
  /\ truthy (Tree.viewMatrix (torn_down (this s))) = false
  /\ truthy (Tree.projMatrix (torn_down (this s))) = false
  /\ truthy_number (Tree.nextFrameHandle (torn_down (this s))) = false
  /\ torn_down (torn_down (this s)) = torn_down (this s)
  /\ cancelled (torn_down (this s)) = [].
Proof.
  split.
  - rewrite Unload_run. unfold invoke. js_run. events_flat. reflexivity.
  - destruct (this s) as [ms ts p c vm pm nf].
    unfold torn_down, cancelled.
    cbn [Tree.models Tree.textures Tree.program Tree.camera Tree.viewMatrix
         Tree.projMatrix Tree.nextFrameHandle].
    destruct ms, p, c, vm, pm; destruct nf as [| | [| h]]; repeat split.
Qed.

(** X10.  After an [Unload], a [Render] of the scene ends in a TypeError at
    [me.program.uniforms], before any draw call. *)
Theorem Render_after_Unload (context : driver) (s : state Tree.Scene) :
  let s1 := snd (Tree.Unload Function s) in
  exists calls : list glcall,
    Tree.Render context s1
    = (Throw (TypeError "me.program"),
       mkState (this s1) (next_handle s1) (events s1 ++ map GL calls))
    /\ Tree.draw_counts (map GL calls) = [].
Proof.
  intros s1. apply Render_without_program.
  subst s1. rewrite Unload_run. unfold invoke. js_run. cbn [snd this].
  unfold torn_down. cbn [Tree.program].
  destruct (Tree.program (this s)); reflexivity.
Qed.

(** X11.  [Begin] requests one frame and stores its handle; a [Pause]
    after it cancels exactly that frame and stores nothing, so the scene
    still holds the cancelled handle and a second [Pause] cancels it
    again. *)
Theorem Begin_then_Pause (s : state Tree.Scene) :
  let h := S (next_handle s) in
  let begun := mkState (Tree.set_nextFrameHandle (Obj h) (this s)) h
                       (events s ++ [RequestAnimationFrame h]) in
  Tree.Begin s = (Normal tt, begun)
  /\ Tree.Pause begun
     = (Normal tt,
        mkState (this begun) h (events begun ++ [CancelAnimationFrame h]))
  /\ Tree.Pause (snd (Tree.Pause begun))
     = (Normal tt,
        mkState (this begun) h
                (events begun ++ [CancelAnimationFrame h; CancelAnimationFrame h])).
Proof.
  intros h begun. split; [| split].
  - unfold Tree.Begin. js_run. reflexivity.
  - rewrite Pause_cancels. reflexivity.
  - rewrite !Pause_cancels. cbn [snd this next_handle events].
    subst begun. cbn [this events]. events_flat. reflexivity.
Qed.

(** X12.  A frame callback that still arrives after [Unload] calls the
    update hook, then fails in [Render] with a TypeError before any draw
    call, and requests no further frame: the loop ends there and the frame
    handle stays [null] or unset. *)
Theorem stale_frame_after_Unload (context : driver) (s : state Tree.Scene)
    (previousFrame currentFrameTime : R) :
  let s1 := snd (Tree.Unload Function s) in
  exists calls : list glcall,
    Tree.loop context previousFrame currentFrameTime s1
    = (Throw (TypeError "me.program"),
       mkState (this s1) (next_handle s1)
               (events s1
                ++ UpdateInvoked (currentFrameTime - previousFrame)
                   :: map GL calls))
    /\ Tree.draw_counts (map GL calls) = []
    /\ truthy_number (Tree.nextFrameHandle (this s1)) = false.
Proof.
  intros s1.
  assert (Hprog : truthy (Tree.program (this s1)) = false
                  /\ truthy_number (Tree.nextFrameHandle (this s1)) = false).
  { subst s1. rewrite Unload_run. unfold invoke. js_run. cbn [snd this].
    unfold torn_down. cbn [Tree.program Tree.nextFrameHandle].
    destruct (Tree.program (this s));
      destruct (Tree.nextFrameHandle (this s)) as [| | [| h]]; split; reflexivity. }
  destruct Hprog as [Hprog Hframe].
  unfold Tree.loop. js_run.
  destruct (Render_without_program context
              (mkState (this s1) (next_handle s1)
                 (events s1 ++ [UpdateInvoked (currentFrameTime - previousFrame)]))
              Hprog) as (calls & Hrun & Hdraws).
  unfold bind. rewrite Hrun. cbn [this next_handle events].
  exists calls. rewrite <- app_assoc. cbn [app].
  split; [reflexivity|]. split; assumption.
Qed.

(** X13.  [Render] uploads the view matrix stored by [Load] and never
    reads the camera: on a scene that has its program, matrices and maps,
    replacing the camera (moving or turning it, or dropping it) changes
    nothing in the calls of the next frame. *)
Theorem Render_ignores_camera
    (context : driver) (me : Tree.Scene) (p : Tree.Program)
    (proj view : mat4.t) (ts : JSObject.t handle)
    (regs : list (string * Tree.Model)) (cam : slot Camera)
    (n : handle) (evs : list event) :
  Tree.program me = Obj p ->
  Tree.projMatrix me = Obj proj ->
  Tree.viewMatrix me = Obj view ->
  Tree.textures me = Obj ts ->
  Tree.models me = Obj (Tree.registered regs) ->
  fst (Tree.Render context (mkState (Tree.set_camera cam me) n evs))
  = fst (Tree.Render context (mkState me n evs))
  /\ events (snd (Tree.Render context (mkState (Tree.set_camera cam me) n evs)))
     = events (snd (Tree.Render context (mkState me n evs)))
  /\ In (GL (uniformMatrix4fv (Tree.u_mView p) view))
        (events (snd (Tree.Render context (mkState (Tree.set_camera cam me) n evs)))).
Proof.
  intros Hp Hproj Hview Hts Hms.
  rewrite (Render_run context me p proj view ts (Tree.registered regs)
             Hp Hproj Hview Hts Hms n evs (registered_keys_distinct regs)).
  rewrite (Render_run context (Tree.set_camera cam me) p proj view ts
             (Tree.registered regs) Hp Hproj Hview Hts Hms n evs
             (registered_keys_distinct regs)).
  cbn [fst snd events].
  split; [reflexivity|]. split; [reflexivity|].
  apply in_or_app. right. rewrite map_app. apply in_or_app. left.
  cbn [Tree.setup_calls map].
  do 9 right. left. reflexivity.
Qed.

Lemma Render_ignores_camera_witness :
  events (snd (Tree.Render healthy_context
                 (mkState (Tree.set_camera
                             (Obj (moveForward 5
                                     (new_Camera (vec3.fromValues 10 0 0)
                                                 (vec3.fromValues 0 0 0)
                                                 (vec3.fromValues 0 1 0))))
                             (this numbered_scene)) 11 [])))
  = events (snd (Tree.Render healthy_context
                   (mkState (this numbered_scene) 11 []))).
Proof.
  pose proof
    (Render_ignores_camera healthy_context (this numbered_scene)
       sample_program mat4.create mat4.create
       (Tree.registered [("2"%string, 9%nat); ("1"%string, 10%nat)])
       [("2"%string, small_model); ("1"%string, large_model)]
       (Obj (moveForward 5
               (new_Camera (vec3.fromValues 10 0 0) (vec3.fromValues 0 0 0)
                           (vec3.fromValues 0 1 0))))
       11%nat []
       eq_refl eq_refl eq_refl eq_refl eq_refl) as (_ & H & _).
  exact H.
Defined.

(** ** More on adding a model *)

(** X14.  The handler of the model request never touches the scene and
    never throws; it adds exactly one event.  That event is the request for
    the image exactly when the status is in 200..299 and the response
    parses, and only then is there a handler left that can register the
    model; a status outside that range is written to the console as a
    number. *)
Theorem request_onload_outcomes
    (JSON_parse : string -> Tree.parsed) (imgURL : string) (status : nat)
    (responseText : string) (s : state Tree.Scene) :
  exists (pending : option Tree.parsed) (e : event),
    Tree.request_onload JSON_parse imgURL status responseText s
    = (Normal pending, mkState (this s) (next_handle s) (events s ++ [e]))
    /\ (pending <> None <-> e = ImageRequested imgURL)
    /\ (pending <> None <->
        (199 < status < 300)%nat
        /\ forall message, JSON_parse responseText <> Tree.Malformed message)
    /\ (~ (199 < status < 300)%nat -> e = ConsoleError (LogNumber status)).
Proof.
  unfold Tree.request_onload.
  destruct (Nat.ltb_spec 199 status) as [Hlo | Hlo];
    [destruct (Nat.ltb_spec status 300) as [Hhi | Hhi] |]; cbn [andb].
  - unfold try_catch.
    destruct (JSON_parse responseText) as [message | | g] eqn:Hparse; js_run.
    + eexists None, _. split; [reflexivity|]. split; [| split].
      * split; [intros H; contradiction | intros H; discriminate H].
      * split; [intros H; contradiction |].
        intros [_ H]. exfalso. apply (H message). reflexivity.
      * intros H. exfalso. apply H. split; assumption.
    + eexists (Some Tree.Incomplete), _. split; [reflexivity|]. split; [| split].
      * split; [reflexivity | discriminate].
      * split; [| discriminate].
        intros _. split; [split; assumption | discriminate].
      * intros H. exfalso. apply H. split; assumption.
    + eexists (Some (Tree.ThreeJS g)), _. split; [reflexivity|]. split; [| split].
      * split; [reflexivity | discriminate].
      * split; [| discriminate].
        intros _. split; [split; assumption | discriminate].
      * intros H. exfalso. apply H. split; assumption.
  - js_run. eexists None, _. split; [reflexivity|]. split; [| split].
    + split; [intros H; contradiction | intros H; discriminate H].
    + split; [intros H; contradiction | intros [[_ H] _]; lia].
    + reflexivity.
  - js_run. eexists None, _. split; [reflexivity|]. split; [| split].
    + split; [intros H; contradiction | intros H; discriminate H].
    + split; [intros H; contradiction | intros [[H _] _]; lia].
    + reflexivity.
Qed.

(** ** Objects as maps: writing and reading *)












(** ** More on the Phong renderer and the Material class *)

(** X19.  No [new renderer(gl)] ever yields a usable renderer, on any
    context and with any global [scene]: the constructor either returns
    early from a failed build, with one console entry and no program, or it
    sets the program and ends in the TypeError; in neither case does the
    object get its [uniforms] or its [attribs]. *)
Theorem renderer_never_complete
    (context : driver) (scene : Phong.global_scene) (next : handle) :
  exists (c : completion unit) (s : state Phong.renderer_object),
    Phong.new_renderer context scene next = (c, s)
    /\ Phong.uniforms (this s) = Undefined
    /\ Phong.attribs (this s) = Undefined
    /\ ((c = Normal tt
         /\ Phong.program (this s) = Undefined
         /\ exists text, GlScene.console_errors (events s) = [LogText text])
        \/ (c = Throw (TypeError "me.uniforms")
            /\ Phong.program (this s) = Obj (S (S (S next)))
            /\ GlScene.console_errors (events s) = [])).
Proof.
  unfold Phong.new_renderer, Phong.renderer. js_run.
  destruct (COMPILE_STATUS context VERTEX_SHADER Phong.vertexShaderText);
    js_run;
    [| eexists _, _; split; [reflexivity|];
       split; [reflexivity|]; split; [reflexivity|]; left;
       split; [reflexivity|]; split; [reflexivity|]; eexists; reflexivity].
  destruct (COMPILE_STATUS context FRAGMENT_SHADER Phong.fragmentShaderText);
    js_run;
    [| eexists _, _; split; [reflexivity|];
       split; [reflexivity|]; split; [reflexivity|]; left;
       split; [reflexivity|]; split; [reflexivity|]; eexists; reflexivity].
  destruct (LINK_STATUS context Phong.vertexShaderText Phong.fragmentShaderText);
    js_run;
    [| eexists _, _; split; [reflexivity|];
       split; [reflexivity|]; split; [reflexivity|]; left;
       split; [reflexivity|]; split; [reflexivity|]; eexists; reflexivity].
  destruct (VALIDATE_STATUS context Phong.vertexShaderText Phong.fragmentShaderText);
    js_run;
    [| eexists _, _; split; [reflexivity|];
       split; [reflexivity|]; split; [reflexivity|]; left;
       split; [reflexivity|]; split; [reflexivity|]; eexists; reflexivity].
  unfold Phong.assign_uniform. js_run.
  cbn [Phong.uniforms Phong.set_program Phong.blank deref]. js_run.
  eexists _, _. split; [reflexivity|].
  split; [reflexivity|]. split; [reflexivity|]. right.
  split; [reflexivity|]. split; reflexivity.
Qed.

(** [getShader] hands back the shader when it compiles and [null], after
    one console entry, when it does not *)
Lemma getShader_run (context : driver) (script : string)
    (type : shader_kind) (s : state Materials.Material) :
  let output := S (next_handle s) in
  let made := [ GL (createShader type output);
                GL (shaderSource output script);
                GL (compileShader output) ] in
  Materials.getShader context script type s
  = if COMPILE_STATUS context type script then
      (Normal (Obj output), mkState (this s) output (events s ++ made))
    else
      (Normal Null,
       mkState (this s) output
         (events s ++ made
          ++ [ConsoleError
                (LogText (String.append "Shader Error: "
                            (String (ascii_of_nat 10)
                               (getShaderInfoLog context type script))))])).
Proof.
  intros output made. subst output made.
  unfold Materials.getShader. js_run.
  destruct (COMPILE_STATUS context type script); js_run; events_flat; reflexivity.
Qed.

(** X20.  [new Material] never throws and always compiles both shaders,
    the fragment shader also when the vertex shader has failed.  The
    object has a program exactly when both shaders compile, whether or not
    that program links; the console stays empty exactly when both compile
    and the program links; no draw call is made. *)
Theorem Material_program_iff_compiled
    (context : driver) (vs fs : string) (next : handle) :
  exists s : state Materials.Material,
    Materials.new_Material context vs fs next = (Normal tt, s)
    /\ In (GL (compileShader (S next))) (events s)
    /\ In (GL (compileShader (S (S next)))) (events s)
    /\ Materials.program (this s)
       = (if COMPILE_STATUS context VERTEX_SHADER vs
             && COMPILE_STATUS context FRAGMENT_SHADER fs
          then Obj (S (S (S next))) else Undefined)
    /\ (GlScene.console_errors (events s) = []
        <-> Materials.build_ok context vs fs = true)
    /\ Tree.draw_counts (events s) = [].
Proof.
  unfold Materials.new_Material, Materials.constructor, Materials.build_ok.
  unfold bind at 1. rewrite getShader_run. cbn [this next_handle events].
  destruct (COMPILE_STATUS context VERTEX_SHADER vs);
    unfold bind at 1; rewrite getShader_run; cbn [this next_handle events];
    destruct (COMPILE_STATUS context FRAGMENT_SHADER fs); js_run.
  - destruct (LINK_STATUS context vs fs); js_run;
      eexists; (split; [reflexivity|]);
      cbn [this events Materials.program app andb GlScene.console_errors
           Tree.draw_counts In];
      (split; [repeat (first [left; reflexivity | right])|]);
      (split; [repeat (first [left; reflexivity | right])|]);
      (split; [reflexivity|]); (split; [| reflexivity]);
      split; intros H; try reflexivity; discriminate H.
  - eexists; (split; [reflexivity|]);
      cbn [this events Materials.program app andb GlScene.console_errors
           Tree.draw_counts In];
      (split; [repeat (first [left; reflexivity | right])|]);
      (split; [repeat (first [left; reflexivity | right])|]);
      (split; [reflexivity|]); (split; [| reflexivity]);
      split; intros H; discriminate H.
  - eexists; (split; [reflexivity|]);
      cbn [this events Materials.program app andb GlScene.console_errors
           Tree.draw_counts In];
      (split; [repeat (first [left; reflexivity | right])|]);
      (split; [repeat (first [left; reflexivity | right])|]);
      (split; [reflexivity|]); (split; [| reflexivity]);
      split; intros H; discriminate H.
  - eexists; (split; [reflexivity|]);
      cbn [this events Materials.program app andb GlScene.console_errors
           Tree.draw_counts In];
      (split; [repeat (first [left; reflexivity | right])|]);
      (split; [repeat (first [left; reflexivity | right])|]);
      (split; [reflexivity|]); (split; [| reflexivity]);
      split; intros H; discriminate H.
Qed.

(** ** The program set-up of gl-scene.js *)

Lemma program_setup_run (context : driver) (vertexText fragmentText : string)
    (s : state unit) :
  let vs := S (next_handle s) in
  let fs := S vs in
  let prog := S fs in
  let log (ok : bool) (text : string) : list event :=
    if ok then [] else [ConsoleError (LogText text)] in
  GlScene.program_setup context vertexText fragmentText s
  = (Normal prog,
     mkState (this s) prog
       (events s
        ++ [ GL (createShader VERTEX_SHADER vs);
             GL (shaderSource vs vertexText);
             GL (compileShader vs) ]
        ++ log (COMPILE_STATUS context VERTEX_SHADER vertexText)
               (getShaderInfoLog context VERTEX_SHADER vertexText)
        ++ [ GL (createShader FRAGMENT_SHADER fs);
             GL (shaderSource fs fragmentText);
             GL (compileShader fs) ]
        ++ log (COMPILE_STATUS context FRAGMENT_SHADER fragmentText)
               (getShaderInfoLog context FRAGMENT_SHADER fragmentText)
        ++ [ GL (createProgram prog);
             GL (attachShader prog vs);
             GL (attachShader prog fs);
             GL (linkProgram prog) ]
        ++ log (LINK_STATUS context vertexText fragmentText)
               (linkInfoLog context vertexText fragmentText))).
Proof.
  intros vs fs prog log. subst vs fs prog log.
  unfold GlScene.program_setup. js_run.
  destruct (COMPILE_STATUS context VERTEX_SHADER vertexText); js_run;
    destruct (COMPILE_STATUS context FRAGMENT_SHADER fragmentText); js_run;
    destruct (LINK_STATUS context vertexText fragmentText); js_run;
    events_flat; destruct s; reflexivity.
Qed.

(** X21.  The two program set-ups of gl-scene.js never stop at a failure:
    whatever fails, both shaders are created and compiled, the program is
    created, both shaders are attached and the program is linked, and the
    script goes on with that program.  Each failed check costs one console
    entry and nothing else, so the console holds as many entries as checks
    have failed. *)
Theorem gl_scene_setup_goes_on (context : driver) (s : state unit) :
  let failures (vertexText fragmentText : string) : nat :=
    ((if COMPILE_STATUS context VERTEX_SHADER vertexText then 0 else 1)
     + (if COMPILE_STATUS context FRAGMENT_SHADER fragmentText then 0 else 1)
     + (if LINK_STATUS context vertexText fragmentText then 0 else 1))%nat in
  (exists s1 : state unit,
      GlScene.geoProgram_setup context s = (Normal (S (S (S (next_handle s)))), s1)
      /\ In (GL (linkProgram (S (S (S (next_handle s)))))) (events s1)
      /\ List.length (GlScene.console_errors (events s1))
         = (List.length (GlScene.console_errors (events s))
            + failures GlScene.geoVertexShaderText GlScene.geoFragmentShaderText)%nat)
  /\ (exists s1 : state unit,
         GlScene.mainProgram_setup context s = (Normal (S (S (S (next_handle s)))), s1)
         /\ In (GL (linkProgram (S (S (S (next_handle s)))))) (events s1)
         /\ List.length (GlScene.console_errors (events s1))
            = (List.length (GlScene.console_errors (events s))
               + failures GlScene.mainVertexShaderText GlScene.mainFragmentShaderText)%nat).
Proof.
  intros failures. subst failures.
  assert (Happ : forall a b, GlScene.console_errors (a ++ b)
                             = GlScene.console_errors a ++ GlScene.console_errors b).
  { induction a as [| e a IH]; intros b; [reflexivity|].
    destruct e; cbn [app GlScene.console_errors]; rewrite ?IH; reflexivity. }
  assert (Hgen : forall vt ft,
    exists s1 : state unit,
      GlScene.program_setup context vt ft s = (Normal (S (S (S (next_handle s)))), s1)
      /\ In (GL (linkProgram (S (S (S (next_handle s)))))) (events s1)
      /\ List.length (GlScene.console_errors (events s1))
         = (List.length (GlScene.console_errors (events s))
            + ((if COMPILE_STATUS context VERTEX_SHADER vt then 0 else 1)
               + (if COMPILE_STATUS context FRAGMENT_SHADER ft then 0 else 1)
               + (if LINK_STATUS context vt ft then 0 else 1)))%nat).
  { intros vt ft. rewrite program_setup_run. eexists. split; [reflexivity|].
    cbn [events]. split.
    - apply in_or_app. right. apply in_or_app. right. apply in_or_app. right.
      apply in_or_app. right. apply in_or_app. right. apply in_or_app. left.
      do 3 right. left. reflexivity.
    - rewrite Happ, length_app. f_equal.
      destruct (COMPILE_STATUS context VERTEX_SHADER vt),
        (COMPILE_STATUS context FRAGMENT_SHADER ft),
        (LINK_STATUS context vt ft); reflexivity. }
  split; [apply (Hgen GlScene.geoVertexShaderText GlScene.geoFragmentShaderText)
         | apply (Hgen GlScene.mainVertexShaderText GlScene.mainFragmentShaderText)].
Qed.

(** ** More on the lighting shaders *)

Lemma length_nonneg (v : vec3.t) : 0 <= vec3.length v.
Proof.
  unfold vec3.length. apply sqrt_pos.
Qed.

(** X22.  The attenuation of the gbuffer lighting pass is 1 at the light,
    never more than 1, zero at distance one and negative beyond it: past
    distance one the light takes colour away instead of adding none. *)
Theorem gbuffer_attenuation_range (uLight_position position : vec3.t) :
  Gbuffer.attenuation uLight_position uLight_position = 1
  /\ Gbuffer.attenuation uLight_position position <= 1
  /\ (Gbuffer.attenuation uLight_position position < 0
      <-> 1 < vec3.length (vec3.subtract uLight_position position))
  /\ (Gbuffer.attenuation uLight_position position = 0
      <-> vec3.length (vec3.subtract uLight_position position) = 1).
Proof.
  unfold Gbuffer.attenuation.
  pose proof (length_nonneg (vec3.subtract uLight_position position)) as Hn.
  split; [| split; [lra | split; split; intros; lra]].
  unfold vec3.length, vec3.squaredLength; simpl.
  replace ((vec3.x uLight_position - vec3.x uLight_position)
           * (vec3.x uLight_position - vec3.x uLight_position)
           + (vec3.y uLight_position - vec3.y uLight_position)
             * (vec3.y uLight_position - vec3.y uLight_position)
           + (vec3.z uLight_position - vec3.z uLight_position)
             * (vec3.z uLight_position - vec3.z uLight_position))
    with 0 by ring.
  rewrite sqrt_0. ring.
Qed.

(** X23.  With a constant term of at least one and a linear and a
    quadratic term that are not negative, the attenuation of
    [CalcPointLight] lies in (0, 1] at every fragment and is 1 / constant
    at the light itself: such a light never brightens what it lights. *)
Theorem point_attenuation_range (light : PhongShader.PointLight)
    (fragPos : vec3.t) :
  1 <= PhongShader.constant light ->
  0 <= PhongShader.linear light ->
  0 <= PhongShader.quadratic light ->
  0 < PhongShader.attenuation light fragPos <= 1
  /\ PhongShader.attenuation light (PhongShader.position light)
     = 1 / PhongShader.constant light.
Proof.
  intros Hc Hl Hq. unfold PhongShader.attenuation.
  split.
  - pose proof (length_nonneg (vec3.subtract (PhongShader.position light) fragPos))
      as Hd.
    set (d := vec3.length (vec3.subtract (PhongShader.position light) fragPos)) in *.
    assert (Hden : 1 <= PhongShader.constant light + PhongShader.linear light * d
                        + PhongShader.quadratic light * (d * d)) by nra.
    split.
    + apply Rdiv_lt_0_compat; lra.
    + apply (Rmult_le_reg_r
               (PhongShader.constant light + PhongShader.linear light * d
                + PhongShader.quadratic light * (d * d))); [lra|].
      unfold Rdiv. rewrite Rmult_assoc, Rinv_l by lra. lra.
  - assert (H0 : vec3.length (vec3.subtract (PhongShader.position light)
                                            (PhongShader.position light)) = 0).
    { unfold vec3.length, vec3.squaredLength; simpl.
      match goal with |- sqrt ?e = 0 => replace e with 0 by ring end.
      apply sqrt_0. }
    rewrite H0. f_equal. ring.
Qed.

Lemma point_attenuation_range_witness :
  1 <= 1 /\ 0 <= 45 / 1000 /\ 0 <= 75 / 10000
  /\ 0 < PhongShader.attenuation
           (PhongShader.mkPointLight (vec3.fromValues 0 0 0)
              (vec3.fromValues 0 0 0) (vec3.fromValues 0 0 0)
              (vec3.fromValues 0 0 0) 1 (45 / 1000) (75 / 10000))
           (vec3.fromValues 1 2 3) <= 1.
Proof.
  split; [lra|]. split; [lra|]. split; [lra|].
  apply (point_attenuation_range
           (PhongShader.mkPointLight (vec3.fromValues 0 0 0)
              (vec3.fromValues 0 0 0) (vec3.fromValues 0 0 0)
              (vec3.fromValues 0 0 0) 1 (45 / 1000) (75 / 10000))
           (vec3.fromValues 1 2 3)); simpl; lra.
Defined.

Lemma clamp01_high (x : R) : 1 <= x -> PhongSpot.clamp01 x = 1.
Proof.
  intros H. unfold PhongSpot.clamp01.
  rewrite Rmax_left by lra. apply Rmin_right. exact H.
Qed.

Lemma clamp01_low (x : R) : x <= 0 -> PhongSpot.clamp01 x = 0.
Proof.
  intros H. unfold PhongSpot.clamp01.
  rewrite Rmax_right by lra. apply Rmin_left. lra.
Qed.

Lemma scale_one (v : vec3.t) : vec3.scale v 1 = v.
Proof.
  apply vec3_ext; simpl; ring.
Qed.

(** X24.  Inside its inner cone a spot light shades a fragment exactly as
    the point light with the same position, colours and falloff does. *)
Theorem spot_inside_inner_cone (light : PhongSpot.SpotLight)
    (normal fragPos viewDir : vec3.t) (shine : R)
    (texDiffuse texSpecular : vec3.t) :
  PhongSpot.outerCutOff light < PhongSpot.innerCutOff light ->
  PhongSpot.innerCutOff light <= PhongSpot.theta light fragPos ->
  PhongSpot.CalcSpotLight light normal fragPos viewDir shine
                          texDiffuse texSpecular
  = PhongShader.CalcPointLight (PhongSpot.as_point light) normal fragPos
                               viewDir shine texDiffuse texSpecular.
Proof.
  intros Hcone Hin.
  unfold PhongSpot.CalcSpotLight, PhongShader.CalcPointLight,
    PhongShader.attenuation. cbv zeta.
  fold (PhongSpot.theta light fragPos).
  rewrite clamp01_high.
  - cbn [PhongSpot.as_point PhongShader.position PhongShader.ambient
         PhongShader.diffuse PhongShader.specular PhongShader.constant
         PhongShader.linear PhongShader.quadratic].
    rewrite !scale_one. reflexivity.
  - apply (Rmult_le_reg_r (PhongSpot.innerCutOff light - PhongSpot.outerCutOff light));
      [lra|].
    unfold Rdiv. rewrite Rmult_assoc, Rinv_l by lra. lra.
Qed.

(** X25.  At or outside its outer cone a spot light contributes its
    attenuated ambient term and nothing else: no diffuse and no specular
    light leaves the cone. *)
Theorem spot_outside_outer_cone (light : PhongSpot.SpotLight)
    (normal fragPos viewDir : vec3.t) (shine : R)
    (texDiffuse texSpecular : vec3.t) :
  PhongSpot.outerCutOff light < PhongSpot.innerCutOff light ->
  PhongSpot.theta light fragPos <= PhongSpot.outerCutOff light ->
  PhongSpot.CalcSpotLight light normal fragPos viewDir shine
                          texDiffuse texSpecular
  = vec3.scale (GLSL.mul (PhongSpot.ambient light) texDiffuse)
               (PhongShader.attenuation (PhongSpot.as_point light) fragPos).
Proof.
  intros Hcone Hout.
  unfold PhongSpot.CalcSpotLight, PhongShader.attenuation. cbv zeta.
  fold (PhongSpot.theta light fragPos).
  rewrite clamp01_low.
  - cbn [PhongSpot.as_point PhongShader.position PhongShader.constant
         PhongShader.linear PhongShader.quadratic].
    apply vec3_ext; simpl; ring.
  - assert (Hinv : 0 < / (PhongSpot.innerCutOff light - PhongSpot.outerCutOff light))
      by (apply Rinv_0_lt_compat; lra).
    unfold Rdiv. nra.
Qed.

Lemma overhead_theta_below :
  PhongSpot.theta overhead_spot (vec3.fromValues 0 0 0) = 1.
Proof.
  unfold PhongSpot.theta, GLSL.normalize, GLSL.neg, vec3.length,
    vec3.squaredLength, vec3.dot; simpl.
  replace (0 * -1 * (0 * -1) + 0 * -1 * (0 * -1) + -1 * -1 * (-1 * -1)) with 1
    by ring.
  replace ((0 - 0) * (0 - 0) + (0 - 0) * (0 - 0) + (1 - 0) * (1 - 0)) with 1
    by ring.
  rewrite sqrt_1. field.
Qed.

Lemma overhead_theta_aside :
  PhongSpot.theta overhead_spot (vec3.fromValues 1 0 1) = 0.
Proof.
  unfold PhongSpot.theta, GLSL.normalize, GLSL.neg, vec3.length,
    vec3.squaredLength, vec3.dot; simpl.
  replace (0 * -1 * (0 * -1) + 0 * -1 * (0 * -1) + -1 * -1 * (-1 * -1)) with 1
    by ring.
  replace ((0 - 1) * (0 - 1) + (0 - 0) * (0 - 0) + (1 - 1) * (1 - 1)) with 1
    by ring.
  rewrite sqrt_1. field.
Qed.

Lemma spot_inside_inner_cone_witness :
  PhongSpot.outerCutOff overhead_spot < PhongSpot.innerCutOff overhead_spot
  /\ PhongSpot.innerCutOff overhead_spot
     <= PhongSpot.theta overhead_spot (vec3.fromValues 0 0 0)
  /\ PhongSpot.CalcSpotLight overhead_spot (vec3.fromValues 0 0 1)
       (vec3.fromValues 0 0 0) (vec3.fromValues 0 0 1) 32
       (vec3.fromValues 1 1 1) (vec3.fromValues 1 1 1)
     = PhongShader.CalcPointLight (PhongSpot.as_point overhead_spot)
         (vec3.fromValues 0 0 1) (vec3.fromValues 0 0 0)
         (vec3.fromValues 0 0 1) 32
         (vec3.fromValues 1 1 1) (vec3.fromValues 1 1 1).
Proof.
  assert (Hcone : PhongSpot.outerCutOff overhead_spot
                  < PhongSpot.innerCutOff overhead_spot) by (simpl; lra).
  assert (Hin : PhongSpot.innerCutOff overhead_spot
                <= PhongSpot.theta overhead_spot (vec3.fromValues 0 0 0))
    by (rewrite overhead_theta_below; simpl; lra).
  split; [exact Hcone|]. split; [exact Hin|].
  exact (spot_inside_inner_cone overhead_spot (vec3.fromValues 0 0 1)
           (vec3.fromValues 0 0 0) (vec3.fromValues 0 0 1) 32
           (vec3.fromValues 1 1 1) (vec3.fromValues 1 1 1) Hcone Hin).
Defined.

Lemma spot_outside_outer_cone_witness :
  PhongSpot.outerCutOff overhead_spot < PhongSpot.innerCutOff overhead_spot
  /\ PhongSpot.theta overhead_spot (vec3.fromValues 1 0 1)
     <= PhongSpot.outerCutOff overhead_spot
  /\ PhongSpot.CalcSpotLight overhead_spot (vec3.fromValues 0 0 1)
       (vec3.fromValues 1 0 1) (vec3.fromValues 0 0 1) 32
       (vec3.fromValues 1 1 1) (vec3.fromValues 1 1 1)
     = vec3.scale (GLSL.mul (PhongSpot.ambient overhead_spot)
                            (vec3.fromValues 1 1 1))
                  (PhongShader.attenuation (PhongSpot.as_point overhead_spot)
                                           (vec3.fromValues 1 0 1)).
Proof.
  assert (Hcone : PhongSpot.outerCutOff overhead_spot
                  < PhongSpot.innerCutOff overhead_spot) by (simpl; lra).
  assert (Hout : PhongSpot.theta overhead_spot (vec3.fromValues 1 0 1)
                 <= PhongSpot.outerCutOff overhead_spot)
    by (rewrite overhead_theta_aside; simpl; lra).
  split; [exact Hcone|]. split; [exact Hout|].
  exact (spot_outside_outer_cone overhead_spot (vec3.fromValues 0 0 1)
           (vec3.fromValues 1 0 1) (vec3.fromValues 0 0 1) 32
           (vec3.fromValues 1 1 1) (vec3.fromValues 1 1 1) Hcone Hout).
Defined.

(** ** The shaders of the tree scene *)

(** X26.  The fragment shader of the tree scene lights with the
    interpolated normal as it arrives, not with the normalised one it
    computes: a fragment whose normal does not face the sun gets the
    ambient light alone, and stretching the normal by a factor [k]
    stretches the sun's share of the light by [k]. *)
Theorem tree_fragment_lighting
    (ambientLightIntensity sun_direction sun_color fragNormal : vec3.t)
    (texel : GLSL.vec4) (k : R) :
  0 <= k ->
  (vec3.dot fragNormal sun_direction <= 0 ->
   TreeShader.fragment_main ambientLightIntensity sun_direction sun_color
                            fragNormal texel
   = GLSL.mkVec4 (GLSL.mul (GLSL.rgb texel) ambientLightIntensity)
                 (GLSL.alpha texel))
  /\ vec3.subtract
       (TreeShader.lightIntensity ambientLightIntensity sun_direction sun_color
                                  (vec3.scale fragNormal k))
       ambientLightIntensity
     = vec3.scale
         (vec3.subtract
            (TreeShader.lightIntensity ambientLightIntensity sun_direction
                                       sun_color fragNormal)
            ambientLightIntensity)
         k.
Proof.
  intros Hk.
  assert (Hdot : forall n, vec3.dot n (GLSL.normalize sun_direction)
                           = vec3.dot n sun_direction
                             * (1 / vec3.length sun_direction)).
  { intros n. unfold GLSL.normalize, vec3.dot; simpl. ring. }
  assert (Hinv : 0 <= 1 / vec3.length sun_direction).
  { pose proof (length_nonneg sun_direction) as Hl.
    destruct (Req_dec (vec3.length sun_direction) 0) as [-> | Hne].
    - unfold Rdiv. rewrite Rinv_0. lra.
    - apply Rlt_le, Rdiv_lt_0_compat; lra. }
  split.
  - intros Haway.
    unfold TreeShader.fragment_main, TreeShader.lightIntensity. cbv zeta.
    rewrite Hdot, Rmax_right by nra.
    f_equal. apply vec3_ext; simpl; ring.
  - unfold TreeShader.lightIntensity. cbv zeta. rewrite !Hdot.
    replace (vec3.dot (vec3.scale fragNormal k) sun_direction)
      with (k * vec3.dot fragNormal sun_direction)
      by (unfold vec3.dot; simpl; ring).
    set (t := vec3.dot fragNormal sun_direction * (1 / vec3.length sun_direction)).
    replace (k * vec3.dot fragNormal sun_direction * (1 / vec3.length sun_direction))
      with (k * t) by (unfold t; ring).
    assert (Hmax : Rmax (k * t) 0 = k * Rmax t 0).
    { destruct (Rle_dec t 0) as [Ht | Ht].
      - rewrite (Rmax_right t 0) by lra. rewrite Rmax_right by nra. ring.
      - rewrite (Rmax_left t 0) by lra. apply Rmax_left. nra. }
    rewrite Hmax. apply vec3_ext; simpl; ring.
Qed.

Lemma tree_fragment_lighting_witness :
  0 <= 2
  /\ vec3.subtract
       (TreeShader.lightIntensity (vec3.fromValues (2 / 10) (2 / 10) (2 / 10))
          (vec3.fromValues 3 4 (-2)) (vec3.fromValues (9 / 10) (9 / 10) (9 / 10))
          (vec3.scale (vec3.fromValues 0 1 0) 2))
       (vec3.fromValues (2 / 10) (2 / 10) (2 / 10))
     = vec3.scale
         (vec3.subtract
            (TreeShader.lightIntensity (vec3.fromValues (2 / 10) (2 / 10) (2 / 10))
               (vec3.fromValues 3 4 (-2))
               (vec3.fromValues (9 / 10) (9 / 10) (9 / 10))
               (vec3.fromValues 0 1 0))
            (vec3.fromValues (2 / 10) (2 / 10) (2 / 10)))
         2.
Proof.
  assert (H : 0 <= 2) by lra.
  split; [exact H|].
  exact (proj2 (tree_fragment_lighting
                  (vec3.fromValues (2 / 10) (2 / 10) (2 / 10))
                  (vec3.fromValues 3 4 (-2))
                  (vec3.fromValues (9 / 10) (9 / 10) (9 / 10))
                  (vec3.fromValues 0 1 0)
                  (GLSL.mkVec4 (vec3.fromValues 1 1 1) 1) 2 H)).
Defined.

(** X27.  [Model.position] places a model, it does not move it: the world
    matrix becomes the translation by the given vector whatever it was
    before, so a second call replaces the first and the offsets do not add
    up.  The matrix takes every point [v] to [v + place]; buffers and index
    count are kept. *)
Theorem Model_position_places (place first : vec3.t) (m : Tree.Model)
    (v : vec3.t) :
  Model_position place (Model_position first m) = Model_position place m
  /\ mat4.transformMat4 v (Tree.world (Model_position place m))
     = vec3.add v place
  /\ Tree.nPoints (Model_position place m) = Tree.nPoints m
  /\ Tree.vbo (Model_position place m) = Tree.vbo m
  /\ Tree.ibo (Model_position place m) = Tree.ibo m
  /\ Tree.nbo (Model_position place m) = Tree.nbo m
  /\ Tree.tbo (Model_position place m) = Tree.tbo m.
Proof.
  split; [reflexivity|]. split; [| repeat split].
  unfold Model_position. cbn [Tree.world].
  rewrite transformMat4_affine by (simpl; ring).
  apply vec3_ext; simpl; ring.
Qed.

(** X28.  For a model placed with [Model.position], the vertex shader
    passes the normal on unchanged and projects the vertex moved by the
    model's place: [gl_Position = mProj * (mView * (vertPosition + place))]. *)
Theorem vertex_shader_of_placed_model (place : vec3.t) (m : Tree.Model)
    (mView mProj : mat4.t) (vertPosition : vec3.t) (vertTexCoord : R * R)
    (vertNormal : vec3.t) :
  let out := TreeShader.vertex_main (Tree.world (Model_position place m))
               mView mProj vertPosition vertTexCoord vertNormal in
  TreeShader.fragNormal out = vertNormal
  /\ TreeShader.fragTexCoord out = vertTexCoord
  /\ TreeShader.gl_Position out
     = TreeShader.mat_vec mProj
         (TreeShader.mat_vec mView
            (TreeShader.extend (vec3.add vertPosition place) 1)).
Proof.
  intros out. subst out.
  unfold TreeShader.vertex_main, Model_position.
  cbn [Tree.world TreeShader.fragNormal TreeShader.fragTexCoord
       TreeShader.gl_Position].
  split; [| split; [reflexivity|]].
  - apply vec3_ext; simpl; ring.
  - unfold TreeShader.mat_vec, TreeShader.mat_mul, TreeShader.extend; simpl.
    f_equal; ring.
Qed.
